(** * HiveBounty: the escrow gateway and the bounty contract

    A shallow embedding of

    - [server/server.js]               (the escrow gateway),
    - [src/services/escrow.service.ts] (the HTTP client of the gateway),
    - [src/contracts/bounty.contract.ts] (the [BountyContract] class),
    - [src/config/hive.config.ts]      (the client configuration),

    together with the properties of the claim-verification and fund-release
    workflow.

    Asynchronous code is embedded as a free monad: every [await] of an external
    call (ledger, code host, signer, HTTP) is a [Vis] node whose continuation
    receives the outcome of the call, either a value or a thrown error.  A
    program is run against an oracle for the external world and yields its
    result together with the trace of the external calls it made. *)

From Stdlib Require Import String Ascii List ZArith Lia Bool DecimalString.
From Stdlib Require DecimalPos DecimalN.
Import ListNotations.
Local Open Scope string_scope.

(* ===================================================================== *)
(** * JavaScript values used by the sources *)
(* ===================================================================== *)

Module JS.

(** A value that may be [undefined]; the sources only use strings there. *)
Definition ostring := option string.

(** ToBoolean on a possibly-undefined string: [undefined] and [''] are falsy. *)
Definition truthy (v : ostring) : bool :=
  match v with
  | Some s => negb (String.eqb s "")
  | None => false
  end.

(** [a || d] where [d] is a string. *)
Definition or_else (a : ostring) (d : string) : string :=
  match a with
  | Some s => if String.eqb s "" then d else s
  | None => d
  end.

(** [a || b] where both may be undefined. *)
Definition or_opt (a b : ostring) : ostring :=
  if truthy a then a else b.

(** [a ?? d]. *)
Definition nullish (a : ostring) (d : string) : string :=
  match a with
  | Some s => s
  | None => d
  end.

(** A possibly-undefined string inside a template literal. *)
Definition tpl (a : ostring) : string := nullish a "undefined".

(** ** Numbers

    A JavaScript number is kept as an exact decimal [m * 10^e], an infinity or
    NaN.  Rounding to IEEE-754 doubles is not modelled: every decimal literal
    denotes exactly its value. *)
Inductive number : Type :=
| NaN
| Inf (neg : bool)
| Dec (m : Z) (e : Z).

Definition isNaN (x : number) : bool :=
  match x with
  | NaN => true
  | _ => false
  end.

(** Both mantissas at the smaller of the two exponents. *)
Definition align (m1 e1 m2 e2 : Z) : Z * Z :=
  let e := Z.min e1 e2 in
  (m1 * 10 ^ (e1 - e), m2 * 10 ^ (e2 - e))%Z.

(** [x < y]; false as soon as one side is NaN. *)
Definition lt (x y : number) : bool :=
  match x, y with
  | NaN, _ | _, NaN => false
  | Inf true, Inf true => false
  | Inf true, _ => true
  | _, Inf true => false
  | Inf false, _ => false
  | _, Inf false => true
  | Dec m1 e1, Dec m2 e2 =>
      let (a, b) := align m1 e1 m2 e2 in (a <? b)%Z
  end.

(** [x <= y]; false as soon as one side is NaN. *)
Definition le (x y : number) : bool :=
  match x, y with
  | NaN, _ | _, NaN => false
  | Inf true, _ => true
  | _, Inf false => true
  | Inf false, _ => false
  | _, Inf true => false
  | Dec m1 e1, Dec m2 e2 =>
      let (a, b) := align m1 e1 m2 e2 in (a <=? b)%Z
  end.

Definition zero : number := Dec 0 0.

(** ** [parseFloat] *)

Definition is_digit (c : ascii) : bool :=
  let n := nat_of_ascii c in andb (48 <=? n)%nat (n <=? 57)%nat.

Definition digit_val (c : ascii) : Z := Z.of_nat (nat_of_ascii c - 48).

(** White space that [parseFloat] skips (the ASCII part of it). *)
Definition is_space (c : ascii) : bool :=
  let n := nat_of_ascii c in
  orb (andb (9 <=? n)%nat (n <=? 13)%nat) (n =? 32)%nat.

Fixpoint skip_spaces (s : list ascii) : list ascii :=
  match s with
  | c :: r => if is_space c then skip_spaces r else s
  | [] => []
  end.

(** The longest prefix of digits, and what follows it. *)
Fixpoint span_digits (s : list ascii) : list ascii * list ascii :=
  match s with
  | c :: r =>
      if is_digit c then let (d, t) := span_digits r in (c :: d, t) else ([], s)
  | [] => ([], [])
  end.

Definition digits_val (d : list ascii) : Z :=
  fold_left (fun acc c => (10 * acc + digit_val c)%Z) d 0%Z.

Fixpoint starts_with (p s : list ascii) : bool :=
  match p, s with
  | [], _ => true
  | a :: p', b :: s' => andb (Ascii.eqb a b) (starts_with p' s')
  | _ :: _, [] => false
  end.

(** An optional sign: whether it is [-], and the rest. *)
Definition read_sign (s : list ascii) : bool * list ascii :=
  match s with
  | "-"%char :: r => (true, r)
  | "+"%char :: r => (false, r)
  | _ => (false, s)
  end.

(** The exponent part [e[+-]digits]; 0 when there is none or it has no digit. *)
Definition read_exponent (s : list ascii) : Z :=
  match s with
  | c :: r =>
      if orb (Ascii.eqb c "e") (Ascii.eqb c "E") then
        let (neg, r1) := read_sign r in
        let (d, _) := span_digits r1 in
        match d with
        | [] => 0%Z
        | _ => if neg then (- digits_val d)%Z else digits_val d
        end
      else 0%Z
  | [] => 0%Z
  end.

(** [parseFloat(s)]: leading white space is skipped and the longest prefix that
    is a decimal literal is read; NaN when there is none. *)
Definition parseFloat (s : string) : number :=
  let s1 := skip_spaces (list_ascii_of_string s) in
  let (neg, s2) := read_sign s1 in
  if starts_with (list_ascii_of_string "Infinity") s2 then Inf neg
  else
    let (ip, r1) := span_digits s2 in
    let (fp, r2) :=
      match r1 with
      | "."%char :: r => span_digits r
      | _ => ([], r1)
      end in
    match ip, fp with
    | [], [] => NaN
    | _, _ =>
        let m := digits_val (ip ++ fp) in
        Dec (if neg then - m else m)%Z (read_exponent r2 - Z.of_nat (length fp))%Z
    end.

(** ** Number to string ([Number::toString], radix 10) *)

Fixpoint drop_zeros (s : list ascii) : list ascii :=
  match s with
  | c :: r => if Ascii.eqb c "0" then drop_zeros r else s
  | [] => []
  end.

Definition digits_of (n : Z) : list ascii :=
  list_ascii_of_string (NilZero.string_of_uint (N.to_uint (Z.to_N n))).

Definition zeros (n : nat) : list ascii := repeat "0"%char n.

(** The digits of a positive decimal and the position of its decimal point:
    the value is [0.s * 10^n]. *)
Definition show_pos (m e : Z) : list ascii :=
  let all := digits_of m in
  let s := rev (drop_zeros (rev all)) in
  let k := Z.of_nat (length s) in
  let n := (e + Z.of_nat (length all))%Z in
  if andb (k <=? n)%Z (n <=? 21)%Z then s ++ zeros (Z.to_nat (n - k))
  else if andb (0 <? n)%Z (n <=? 21)%Z then
    firstn (Z.to_nat n) s ++ "."%char :: skipn (Z.to_nat n) s
  else if andb (-6 <? n)%Z (n <=? 0)%Z then
    "0"%char :: "."%char :: zeros (Z.to_nat (- n)) ++ s
  else
    let ex := (if (0 <=? n - 1)%Z then "+"%char else "-"%char)
                :: digits_of (Z.abs (n - 1)) in
    match s with
    | [c] => c :: "e"%char :: ex
    | c :: r => c :: "."%char :: r ++ "e"%char :: ex
    | [] => []
    end.

Definition toString (x : number) : string :=
  match x with
  | NaN => "NaN"
  | Inf false => "Infinity"
  | Inf true => "-Infinity"
  | Dec 0 _ => "0"
  | Dec (Zpos p) e => string_of_list_ascii (show_pos (Zpos p) e)
  | Dec (Zneg p) e => string_of_list_ascii ("-"%char :: show_pos (Zpos p) e)
  end.

(** A natural number in decimal, as in a status code inside a message. *)
Definition nat_to_string (n : nat) : string :=
  NilZero.string_of_uint (Nat.to_uint n).

End JS.

(* ===================================================================== *)
(** * Asynchronous programs *)
(* ===================================================================== *)

(** The value thrown by a failing external call, as far as the sources look at
    it: its [message] property, which may be undefined. *)
Record JsError : Type := mkError { err_message : JS.ostring }.

(** What an awaited external call comes back with. *)
Inductive outcome (A : Type) : Type :=
| Returns (a : A)
| Throws (err : JsError).
Arguments Returns {A} a.
Arguments Throws {A} err.

Section Free.
Context {E : Type} {R : E -> Type}.

(** A program that calls the outside world: it is done, or it makes the call
    [e] and goes on with the reply. *)
Inductive prog (A : Type) : Type :=
| Ret (a : A)
| Vis (e : E) (k : R e -> prog A).
Arguments Ret {A} a.
Arguments Vis {A} e k.

(** The run of a program in a world that answers every call: the result and
    the calls made, in order. *)
Fixpoint run {A : Type} (world : forall e, R e) (p : prog A) : A * list E :=
  match p with
  | Ret a => (a, [])
  | Vis e k => let (a, t) := run world (k (world e)) in (a, e :: t)
  end.

(** One step of a program against a world with state. *)
Definition step {S A : Type} (answer : S -> forall e, S * R e)
  (s : S) (p : prog A) : S * prog A * option E :=
  match p with
  | Ret a => (s, Ret a, None)
  | Vis e k => let (s', r) := answer s e in (s', k r, Some e)
  end.

(** The run of a program to its end against a world with state. *)
Fixpoint run_state {S A : Type} (answer : S -> forall e, S * R e)
  (s : S) (p : prog A) : S * A * list E :=
  match p with
  | Ret a => (s, a, [])
  | Vis e k =>
      let (s', r) := answer s e in
      let '(s'', a, t) := run_state answer s' (k r) in (s'', a, e :: t)
  end.

End Free.
Arguments prog E R A : clear implicits.
Arguments Ret {E R A} a.
Arguments Vis {E R A} e k.

(** Whose turn it is when two programs share the world. *)
Inductive turn : Type := First | Second.

Section Race.
Context {E : Type} {R : E -> Type} {S A : Type}.
Variable answer : S -> forall e : E, S * R e.

(** Two programs that run on one event loop: at each turn one of them makes
    its next call and is resumed with the reply.  The result is the state of
    the world, what is left of the two programs, and the calls in the order
    in which they were made. *)
Fixpoint interleave (schedule : list turn) (s : S) (a b : prog E R A)
  : S * prog E R A * prog E R A * list (turn * E) :=
  match schedule with
  | [] => (s, a, b, [])
  | First :: rest =>
      let '(s', a', e) := step answer s a in
      let '(s'', a'', b'', log) := interleave rest s' a' b in
      (s'', a'', b'',
       match e with Some c => (First, c) :: log | None => log end)
  | Second :: rest =>
      let '(s', b', e) := step answer s b in
      let '(s'', a'', b'', log) := interleave rest s' a b' in
      (s'', a'', b'',
       match e with Some c => (Second, c) :: log | None => log end)
  end.


End Race.

(* ===================================================================== *)
(** * The escrow gateway ([server/server.js]) *)
(* ===================================================================== *)

Module Gateway.

(** The custodial key as the ledger client holds it. *)
Record PrivateKey : Type := mkKey { wif : string }.

(** [process.env], as far as the server reads it. *)
Record ProcessEnv : Type := mkEnv {
  env_ESCROW_ACCOUNT : JS.ostring;
  env_ACTIVE_KEY : JS.ostring;
  env_API_KEY : JS.ostring
}.

(** The module-level constants of the server. *)
Record Config : Type := mkConfig {
  ESCROW_ACCOUNT : JS.ostring;
  ACTIVE_KEY : option PrivateKey;
  API_KEY : string
}.

(** The start of the server: the key is loaded when one is given and
    [PrivateKey.from] accepts it; otherwise [ACTIVE_KEY] stays null. *)
Definition load (PrivateKey_from : string -> outcome PrivateKey)
  (env : ProcessEnv) : Config :=
  {| ESCROW_ACCOUNT := env_ESCROW_ACCOUNT env;
     ACTIVE_KEY :=
       match env_ACTIVE_KEY env with
       | Some k =>
           if JS.truthy (Some k) then
             match PrivateKey_from k with
             | Returns key => Some key
             | Throws _ => None
             end
           else None
       | None => None
       end;
     API_KEY := JS.or_else (env_API_KEY env) "your-api-key" |}.

(** An account as the ledger reports it. *)
Record Account : Type := mkAccount {
  name : string;
  balance : string;
  hbd_balance : string
}.

(** The transfer operation [['transfer', {from, to, amount, memo}]]. *)
Record Transfer : Type := mkTransfer {
  t_from : string;
  t_to : string;
  t_amount : string;
  t_memo : string
}.

Record Confirmation : Type := mkConfirmation { id : string }.

(** The calls of the server to the ledger client. *)
Inductive call : Type :=
| GetAccounts (names : list string)
| SendOperations (ops : list Transfer) (key : PrivateKey).

Definition reply (c : call) : Type :=
  match c with
  | GetAccounts _ => outcome (option (list Account))
  | SendOperations _ _ => outcome Confirmation
  end.

Definition io := prog call reply.

(** The JSON objects the API answers with. *)
Record Json : Type := mkJson {
  success : bool;
  message : JS.ostring;
  j_balance : JS.ostring;
  j_hbd_balance : JS.ostring;
  transaction_id : JS.ostring
}.

Inductive Body : Type :=
| Api (j : Json)
| ServiceInfo
| NoRoute.

Record Response : Type := mkResponse { status : nat; body : Body }.

(** [{ success: false, message }] *)
Definition failure (m : JS.ostring) : Json :=
  {| success := false; message := m; j_balance := None;
     j_hbd_balance := None; transaction_id := None |}.

Definition json (st : nat) (j : Json) : Response :=
  {| status := st; body := Api j |}.

Inductive Method : Type := GET | POST.

(** The fields the release handler reads from the parsed JSON body; each is
    a string or is missing, as the client sends them. *)
Record ReleaseBody : Type := mkBody {
  to : JS.ostring;
  amount : JS.ostring;
  memo : JS.ostring;
  bountyId : JS.ostring;
  requester : JS.ostring
}.

Record Request : Type := mkRequest {
  method : Method;
  path : string;
  x_api_key : JS.ostring;
  req_body : ReleaseBody
}.

(** The middleware [verifyApiKey]. *)
Definition verifyApiKey (cfg : Config) (req : Request)
  (next : io Response) : io Response :=
  let providedKey := x_api_key req in
  if andb (JS.truthy providedKey)
          (String.eqb (JS.nullish providedKey "") (API_KEY cfg))
  then next
  else Ret (json 401 (failure (Some "Unauthorized"))).

(** The handler of [GET /api/balance]. *)
Definition balanceHandler (cfg : Config) : io Response :=
  if negb (JS.truthy (ESCROW_ACCOUNT cfg)) then
    Ret (json 500 (failure (Some "Escrow account not configured")))
  else
    Vis (GetAccounts [JS.nullish (ESCROW_ACCOUNT cfg) ""]) (fun r =>
      match r return io Response with
      | Returns (Some (a :: _)) =>
          Ret (json 200 {| success := true; message := None;
                           j_balance := Some (balance a);
                           j_hbd_balance := Some (hbd_balance a);
                           transaction_id := None |})
      | Returns _ =>
          Ret (json 404 (failure (Some "Account not found")))
      | Throws err =>
          Ret (json 500 (failure (err_message err)))
      end).

(** The handler of [POST /api/release]. *)
Definition releaseHandler (cfg : Config) (b : ReleaseBody) : io Response :=
  if orb (orb (negb (JS.truthy (to b))) (negb (JS.truthy (amount b))))
         (orb (negb (JS.truthy (bountyId b))) (negb (JS.truthy (requester b))))
  then Ret (json 400 (failure (Some "Missing required parameters")))
  else if negb (JS.truthy (ESCROW_ACCOUNT cfg)) then
    Ret (json 500 (failure (Some "Escrow account not properly configured")))
  else
    match ACTIVE_KEY cfg with
    | None =>
        Ret (json 500 (failure (Some "Private key not configured or invalid")))
    | Some key =>
        let escrow := JS.nullish (ESCROW_ACCOUNT cfg) "" in
        Vis (GetAccounts [escrow]) (fun r =>
          match r return io Response with
          | Throws err => Ret (json 500 (failure (err_message err)))
          | Returns None | Returns (Some []) =>
              Ret (json 404 (failure (Some "Escrow account not found")))
          | Returns (Some (a :: _)) =>
              let balance := JS.parseFloat (balance a) in
              let requestedAmount := JS.parseFloat (JS.tpl (amount b)) in
              if orb (JS.isNaN requestedAmount) (JS.le requestedAmount JS.zero)
              then Ret (json 400 (failure (Some "Invalid amount")))
              else if JS.lt balance requestedAmount then
                Ret (json 400 (failure (Some (
                  "Insufficient balance in escrow account. Available: "
                  ++ JS.toString balance ++ " HIVE, Requested: "
                  ++ JS.toString requestedAmount ++ " HIVE"))))
              else
                let transfer :=
                  {| t_from := escrow;
                     t_to := JS.tpl (to b);
                     t_amount := JS.tpl (amount b) ++ " HIVE";
                     t_memo := JS.or_else (memo b)
                       ("Bounty payment for " ++ JS.tpl (bountyId b)
                        ++ " requested by " ++ JS.tpl (requester b)) |} in
                Vis (SendOperations [transfer] key) (fun r2 =>
                  match r2 return io Response with
                  | Throws err => Ret (json 500 (failure (err_message err)))
                  | Returns result =>
                      Ret (json 200
                        {| success := true;
                           message := Some ("Successfully sent "
                             ++ JS.tpl (amount b) ++ " HIVE to @"
                             ++ JS.tpl (to b));
                           j_balance := None; j_hbd_balance := None;
                           transaction_id := Some (id result) |})
                  end)
          end)
    end.

(** The routes of the application; a path is matched as it is written. *)
Definition app (cfg : Config) (req : Request) : io Response :=
  match method req with
  | GET =>
      if String.eqb (path req) "/" then
        Ret {| status := 200; body := ServiceInfo |}
      else if String.eqb (path req) "/api/balance" then
        verifyApiKey cfg req (balanceHandler cfg)
      else Ret {| status := 404; body := NoRoute |}
  | POST =>
      if String.eqb (path req) "/api/release" then
        verifyApiKey cfg req (releaseHandler cfg (req_body req))
      else Ret {| status := 404; body := NoRoute |}
  end.

(** Whether a call submits a transfer to the ledger. *)
Definition is_transfer (c : call) : bool :=
  match c with
  | SendOperations _ _ => true
  | GetAccounts _ => false
  end.

End Gateway.

(* ===================================================================== *)
(** * The browser application ([src/]) *)
(* ===================================================================== *)

Module App.

(** [src/config/hive.config.ts]: the constants read from the build
    environment. *)
Record BuildEnv : Type := mkBuildEnv {
  VITE_CONTRACT_ACCOUNT : JS.ostring;
  VITE_ESCROW_SERVICE_URL : JS.ostring;
  VITE_ESCROW_API_KEY : JS.ostring
}.

Definition CONTRACT_ACCOUNT (env : BuildEnv) : JS.ostring :=
  VITE_CONTRACT_ACCOUNT env.

Definition ESCROW_SERVICE_URL (env : BuildEnv) : string :=
  JS.or_else (VITE_ESCROW_SERVICE_URL env) "http://localhost:3000/api".

Definition ESCROW_API_KEY (env : BuildEnv) : string :=
  JS.or_else (VITE_ESCROW_API_KEY env) "your-api-key".

(** What the page finds around it: whether [window.hive_keychain] is there,
    and what [new Date().toISOString()] gives. *)
Record Browser : Type := mkBrowser {
  hive_keychain : bool;
  now : string
}.

(** The uniform result of the public operations. *)
Record TransactionResponse : Type := mkTx {
  success : bool;
  message : string;
  txId : JS.ostring
}.

(** [{ success: false, message }] *)
Definition failure (m : string) : TransactionResponse :=
  {| success := false; message := m; txId := None |}.

(** The state in which the promise returned by an operation ends. *)
Inductive promise (A : Type) : Type :=
| Fulfilled (a : A)
| Rejected (err : JsError)
| Pending.
Arguments Fulfilled {A} a.
Arguments Rejected {A} err.
Arguments Pending {A}.

(** The bounty as [createBounty] receives it. *)
Record BountyData : Type := mkBountyData {
  title : string;
  description : string;
  githubLink : string;
  prizePool : JS.number
}.

Inductive Status : Type := OPEN | CLAIMED | APPROVED | PAID | CANCELLED.

Record BountyProgram : Type := mkBounty {
  b_id : string;
  b_creator : string;
  b_status : Status;
  b_created : string;
  b_data : BountyData
}.

Record BountyClaim : Type := mkClaim {
  c_bountyId : string;
  solver : string;
  pullRequestUrl : string;
  mergeCommitHash : string;
  timestamp : string;
  githubUsername : string
}.

(** The payloads handed to the signer, before [JSON.stringify]. *)
Inductive Attestation : Type :=
| bounty_create (creator : string) (status : Status) (created : string)
    (data : BountyData)
| bounty_claim (data : BountyClaim)
| bounty_approve (bountyId approver solver amount timestamp : string).

(** The response the signer hands to the callback. *)
Record KeychainResult : Type := mkResult { id : JS.ostring }.

Record KeychainResponse : Type := mkKeychainResponse {
  k_success : bool;
  k_error : JS.ostring;
  k_result : option KeychainResult
}.

(** [response.result?.id ?? 'unknown'] *)
Definition result_id (r : KeychainResponse) : string :=
  match k_result r with
  | Some res => JS.nullish (id res) "unknown"
  | None => "unknown"
  end.

(** What a call of [requestCustomJson] leads to: the callback is called with
    a response, the call itself throws, or the callback is never called. *)
Inductive keychain_reply : Type :=
| Responds (r : KeychainResponse)
| Raises (err : JsError)
| Silent.

(** The parts of a GitHub URL. *)
Record UrlInfo : Type := mkUrl { owner : string; repo : string; number : N }.

Record PrUser : Type := mkUser { login : string }.

Record PrDetails : Type := mkPr {
  merged : bool;
  user : option PrUser;
  mergeCommitSha : JS.ostring
}.

(** An account as the ledger client reports it. *)
Record Account : Type := mkAccount { balance : string }.

(** What axios gets back: an HTTP response, or no response at all. *)
Inductive http_reply : Type :=
| HttpResponse (r : Gateway.Response)
| NetworkError (msg : JS.ostring).

(** The calls of the application to the world around it. *)
Inductive call : Type :=
| GetAccounts (names : list JS.ostring)
| RequestCustomJson (account id keyType : string) (json : Attestation)
    (display : string)
| SendHiveTokens (from : string) (to : JS.ostring) (amount memo : string)
| IsIssueClosed (owner repo : string) (number : N)
| GetPullRequestDetails (owner repo : string) (number : N)
| IsPRLinkedToIssue (owner repo : string) (prNumber issueNumber : N)
| HttpPost (url apiKey : string) (body : Gateway.ReleaseBody).

Definition reply (c : call) : Type :=
  match c with
  | GetAccounts _ => outcome (option (list Account))
  | RequestCustomJson _ _ _ _ _ => keychain_reply
  | SendHiveTokens _ _ _ _ => outcome TransactionResponse
  | IsIssueClosed _ _ _ => outcome bool
  | GetPullRequestDetails _ _ _ => outcome PrDetails
  | IsPRLinkedToIssue _ _ _ _ => outcome bool
  | HttpPost _ _ _ => http_reply
  end.

Definition io := prog call reply.

(** The error of reading [requestCustomJson] off an undefined
    [window.hive_keychain]. *)
Definition keychain_undefined : JsError :=
  mkError (Some "Cannot read properties of undefined (reading 'requestCustomJson')").

(* --------------------------------------------------------------------- *)
(** ** [src/services/escrow.service.ts] *)

(** The fields of a response body as the client reads them. *)
Definition data_success (b : Gateway.Body) : bool :=
  match b with
  | Gateway.Api j => Gateway.success j
  | _ => false
  end.

Definition data_message (b : Gateway.Body) : JS.ostring :=
  match b with
  | Gateway.Api j => Gateway.message j
  | _ => None
  end.

Definition data_transaction_id (b : Gateway.Body) : JS.ostring :=
  match b with
  | Gateway.Api j => Gateway.transaction_id j
  | _ => None
  end.

(** axios settles a request: a status from 200 to 299 resolves with the
    response; any other status, and no response, reject with an error. *)
Inductive axios_result : Type :=
| AxiosOk (data : Gateway.Body)
| AxiosFail (response_data : option Gateway.Body) (msg : JS.ostring).

Definition axios_settle (r : http_reply) : axios_result :=
  match r with
  | HttpResponse resp =>
      let st := Gateway.status resp in
      if andb (200 <=? st)%nat (st <? 300)%nat then AxiosOk (Gateway.body resp)
      else AxiosFail (Some (Gateway.body resp))
             (Some ("Request failed with status code " ++ JS.nat_to_string st))
  | NetworkError m => AxiosFail None m
  end.

(** [releaseEscrowFunds] *)
Definition releaseEscrowFunds (env : BuildEnv)
  (to amount bountyId requester : string) (memo : JS.ostring)
  : io (promise TransactionResponse) :=
  Vis (HttpPost (JS.or_else (Some (ESCROW_SERVICE_URL env))
                   "http://localhost:3000/api" ++ "/release")
         (JS.or_else (Some (ESCROW_API_KEY env)) "your-api-key")
         {| Gateway.to := Some to; Gateway.amount := Some amount;
            Gateway.memo := memo; Gateway.bountyId := Some bountyId;
            Gateway.requester := Some requester |})
    (fun r =>
       match axios_settle r with
       | AxiosOk data =>
           if data_success data then
             Ret (Fulfilled
               {| success := true;
                  message := JS.or_else (data_message data)
                               "Funds released successfully";
                  txId := data_transaction_id data |})
           else
             Ret (Fulfilled (failure
               (JS.or_else (data_message data) "Failed to release funds")))
       | AxiosFail response_data msg =>
           Ret (Fulfilled (failure
             (JS.or_else
                (JS.or_opt
                   (match response_data with
                    | Some d => data_message d
                    | None => None
                    end) msg)
                "Failed to release funds")))
       end).

(* --------------------------------------------------------------------- *)
(** ** [src/contracts/bounty.contract.ts]: the class [BountyContract] *)

Section BountyContract.

Variable env : BuildEnv.
Variable window : Browser.
(** [parseGitHubUrl], of [src/utils/github]: pure, no network call. *)
Variable parseGitHubUrl : string -> option UrlInfo.
(** [this.username] *)
Variable username : string.

(** [createBounty] *)
Definition createBounty (bountyData : BountyData)
  : io (promise TransactionResponse) :=
  let caught (err : JsError) :=
    Fulfilled (failure ("Failed to create bounty: " ++ JS.tpl (err_message err))) in
  Vis (GetAccounts [CONTRACT_ACCOUNT env]) (fun contractAccounts =>
    match contractAccounts return io (promise TransactionResponse) with
    | Throws err => Ret (caught err)
    | Returns None | Returns (Some []) =>
        Ret (Fulfilled (failure ("Contract account "
          ++ JS.tpl (CONTRACT_ACCOUNT env) ++ " does not exist")))
    | Returns (Some (_ :: _)) =>
        let created := now window in
        Vis (GetAccounts [Some username]) (fun accounts =>
          match accounts return io (promise TransactionResponse) with
          | Throws err => Ret (caught err)
          | Returns None | Returns (Some []) =>
              Ret (Fulfilled (failure "Could not fetch account information"))
          | Returns (Some (account :: _)) =>
              let userBalance := JS.parseFloat (balance account) in
              let bountyAmount :=
                JS.parseFloat (JS.toString (prizePool bountyData)) in
              if JS.lt userBalance bountyAmount then
                Ret (Fulfilled (failure ("Insufficient balance. You have "
                  ++ JS.toString userBalance
                  ++ " HIVE but the bounty requires "
                  ++ JS.toString bountyAmount ++ " HIVE")))
              else if negb (hive_keychain window) then
                Ret (Fulfilled (failure "Hive Keychain extension not found"))
              else
                Vis (RequestCustomJson username "dev-bounties" "Active"
                       (bounty_create username OPEN created bountyData)
                       "Create Development Bounty")
                  (fun k =>
                     match k return io (promise TransactionResponse) with
                     | Raises err => Ret (Rejected err)
                     | Silent => Ret Pending
                     | Responds response =>
                         if k_success response then
                           Vis (SendHiveTokens username (CONTRACT_ACCOUNT env)
                                  (JS.toString (prizePool bountyData))
                                  ("bounty-create-" ++ result_id response))
                             (fun t =>
                                match t return io (promise TransactionResponse) with
                                | Returns transferResult =>
                                    if success transferResult then
                                      Ret (Fulfilled
                                        {| success := true;
                                           message := "Bounty created and funded successfully";
                                           txId := Some (result_id response) |})
                                    else
                                      Ret (Fulfilled
                                        {| success := false;
                                           message := "Bounty created but funding failed: "
                                             ++ message transferResult
                                             ++ ". Please try funding manually.";
                                           txId := Some (result_id response) |})
                                | Throws err =>
                                    Ret (Fulfilled
                                      {| success := false;
                                         message := "Bounty created but funding failed: "
                                           ++ JS.tpl (err_message err)
                                           ++ ". Please try funding manually.";
                                         txId := Some (result_id response) |})
                                end)
                         else
                           Ret (Fulfilled (failure
                             (JS.or_else (k_error response) "Failed to create bounty")))
                     end)
          end)
    end).

(** [claimBounty] *)
Definition claimBounty (bountyId : string) (bountyData : BountyProgram)
  (pullRequestUrl : string) : io (promise TransactionResponse) :=
  let caught (err : JsError) :=
    Fulfilled (failure (JS.or_else (err_message err) "Error processing claim")) in
  match parseGitHubUrl (githubLink (b_data bountyData)),
        parseGitHubUrl pullRequestUrl with
  | Some issueUrlInfo, Some prUrlInfo =>
      if orb (negb (String.eqb (owner issueUrlInfo) (owner prUrlInfo)))
             (negb (String.eqb (repo issueUrlInfo) (repo prUrlInfo)))
      then Ret (Fulfilled (failure
             "Pull request must be in the same repository as the issue"))
      else
      Vis (IsIssueClosed (owner issueUrlInfo) (repo issueUrlInfo)
             (number issueUrlInfo))
        (fun r1 =>
      match r1 return io (promise TransactionResponse) with
      | Throws err => Ret (caught err)
      | Returns isIssueResolved =>
      if negb isIssueResolved then
        Ret (Fulfilled (failure
          "The issue must be closed before claiming the bounty"))
      else
      Vis (GetPullRequestDetails (owner prUrlInfo) (repo prUrlInfo)
             (number prUrlInfo))
        (fun r2 =>
      match r2 return io (promise TransactionResponse) with
      | Throws err => Ret (caught err)
      | Returns prDetails =>
      if negb (merged prDetails) then
        Ret (Fulfilled (failure
          "The pull request must be merged before claiming the bounty"))
      else
      match user prDetails with
      | None =>
          Ret (Fulfilled (failure "Could not verify pull request creator"))
      | Some prUser =>
      Vis (IsPRLinkedToIssue (owner issueUrlInfo) (repo issueUrlInfo)
             (number prUrlInfo) (number issueUrlInfo))
        (fun r3 =>
      match r3 return io (promise TransactionResponse) with
      | Throws err => Ret (caught err)
      | Returns isPRLinked =>
      if negb isPRLinked then
        Ret (Fulfilled (failure
          "The pull request must reference the issue it resolves"))
      else
      let claimData :=
        {| c_bountyId := bountyId;
           solver := username;
           pullRequestUrl := pullRequestUrl;
           mergeCommitHash := JS.or_else (mergeCommitSha prDetails) "";
           timestamp := now window;
           githubUsername := login prUser |} in
      (* [return new Promise(...)]: the promise is returned without being
         awaited, so the surrounding [catch] does not see its rejection *)
      if negb (hive_keychain window) then Ret (Rejected keychain_undefined)
      else
      Vis (RequestCustomJson username "dev-bounties" "Active"
             (bounty_claim claimData) "Claim Development Bounty")
        (fun k =>
      match k return io (promise TransactionResponse) with
      | Raises err => Ret (Rejected err)
      | Silent => Ret Pending
      | Responds response =>
          if k_success response then
            Ret (Fulfilled
              {| success := true;
                 message := "Claim submitted successfully. The bounty creator will review your claim.";
                 txId := Some (result_id response) |})
          else
            Ret (Fulfilled (failure
              (JS.or_else (k_error response) "Failed to submit claim")))
      end)
      end)
      end
      end)
      end)
  | _, _ => Ret (Fulfilled (failure "Invalid GitHub URLs"))
  end.

(** The approval as the callback of [verifyAndPayBounty] resolves it. *)
Definition approvalResult (response : KeychainResponse) : TransactionResponse :=
  if k_success response then
    {| success := true;
       message := "Solution approval recorded on blockchain";
       txId := Some (result_id response) |}
  else failure (JS.or_else (k_error response) "Failed to record approval").

(** [verifyAndPayBounty] *)
Definition verifyAndPayBounty (bountyId : string) (claim : BountyClaim)
  (bountyAmount : string) : io (promise TransactionResponse) :=
  let caught (err : JsError) :=
    Fulfilled (failure ("Error processing payment: " ++ JS.tpl (err_message err))) in
  (* [await new Promise(...)]: a rejection is thrown inside the [try] *)
  if negb (hive_keychain window) then Ret (caught keychain_undefined)
  else
    Vis (RequestCustomJson username "dev-bounties" "Active"
           (bounty_approve bountyId username (solver claim) bountyAmount
              (now window))
           "Approve Bounty Solution")
      (fun k =>
         match k return io (promise TransactionResponse) with
         | Raises err => Ret (caught err)
         | Silent => Ret Pending
         | Responds response =>
             if negb (success (approvalResult response)) then
               Ret (Fulfilled (approvalResult response))
             else
               releaseEscrowFunds env (solver claim) bountyAmount bountyId
                 username (Some ("Bounty payment for " ++ bountyId))
         end).

End BountyContract.

(** Whether a call asks the signer for an attestation. *)
Definition is_attestation (c : call) : bool :=
  match c with
  | RequestCustomJson _ _ _ _ _ => true
  | _ => false
  end.

(** Whether a call moves or releases funds. *)
Definition is_payment (c : call) : bool :=
  match c with
  | SendHiveTokens _ _ _ _ | HttpPost _ _ _ => true
  | _ => false
  end.

End App.

(* ===================================================================== *)
(** * The application in front of the gateway *)
(* ===================================================================== *)

Module Deployment.

(** The rest of [s] after the prefix [p], when [s] starts with it. *)
Fixpoint strip_prefix (p s : string) : option string :=
  match p, s with
  | EmptyString, _ => Some s
  | String a p', String b s' =>
      if Ascii.eqb a b then strip_prefix p' s' else None
  | String _ _, EmptyString => None
  end.

(** A gateway that listens at [origin], with its configuration and the ledger
    behind it. *)
Record Site : Type := mkSite {
  origin : string;
  config : Gateway.Config;
  ledger : forall c, Gateway.reply c
}.

(** A POST as the gateway at [origin] answers it, with the calls the gateway
    made to the ledger; no response when the URL is not the gateway's. *)
Definition post (site : Site) (url apiKey : string)
  (body : Gateway.ReleaseBody) : App.http_reply * list Gateway.call :=
  match strip_prefix (origin site) url with
  | Some path =>
      let (resp, calls) :=
        run (ledger site)
          (Gateway.app (config site)
             {| Gateway.method := Gateway.POST;
                Gateway.path := path;
                Gateway.x_api_key := Some apiKey;
                Gateway.req_body := body |}) in
      (App.HttpResponse resp, calls)
  | None => (App.NetworkError (Some "Network Error"), [])
  end.

(** The world of the application when its HTTP requests go to [site]; the
    state is the list of the calls the gateway made to the ledger so far. *)
Definition answer (site : Site) (rest : forall c, App.reply c)
  (made : list Gateway.call) (c : App.call)
  : list Gateway.call * App.reply c :=
  match c return list Gateway.call * App.reply c with
  | App.HttpPost url apiKey body =>
      let (r, calls) := post site url apiKey body in ((made ++ calls)%list, r)
  | c' => (made, rest c')
  end.


(** [verifyAndPayBounty] against the gateway: the promise's end state, the
    calls of the application and the calls made to the ledger. *)
Definition verifyAndPay (site : Site) (env : App.BuildEnv)
  (window : App.Browser) (rest : forall c, App.reply c)
  (username bountyId : string) (claim : App.BountyClaim)
  (bountyAmount : string)
  : App.promise App.TransactionResponse * list App.call * list Gateway.call :=
  let '(calls, res, trace) :=
    run_state (answer site rest) []
      (App.verifyAndPayBounty env window username bountyId claim
         bountyAmount) in
  (res, trace, calls).

End Deployment.

(* ===================================================================== *)
(** * The ledger *)
(* ===================================================================== *)

Module Ledger.

(** Modelled from the spec: the ledger behind the dhive client, which is not
    part of the repository.  It holds the custodial account; reading the
    account reports its balance, and a transfer that it accepts moves the
    amount out of the account, irreversibly.  A transfer above the balance is
    refused by the ledger itself. *)
Record state : Type := mkState {
  custodian : string;
  funds : Z;          (* in thousandths of a HIVE *)
  sent : nat          (* the transfers accepted so far *)
}.

Definition digit_char (d : Z) : ascii := ascii_of_nat (48 + Z.to_nat d).

(** An amount in thousandths as the ledger prints it: [12.345]. *)
Definition show_milli (z : Z) : string :=
  string_of_list_ascii
    (JS.digits_of (z / 1000)
     ++ "."%char
     :: [digit_char (z mod 1000 / 100); digit_char (z mod 100 / 10);
         digit_char (z mod 10)])%list.

(** A number as an amount in thousandths, when it has no finer digits. *)
Definition milli (x : JS.number) : option Z :=
  match x with
  | JS.Dec m e => if (-3 <=? e)%Z then Some (m * 10 ^ (e + 3))%Z else None
  | _ => None
  end.

Definition account (l : state) : Gateway.Account :=
  {| Gateway.name := custodian l;
     Gateway.balance := show_milli (funds l) ++ " HIVE";
     Gateway.hbd_balance := "0.000 HBD" |}.

Definition refusal (m : string) {A : Type} : outcome A :=
  Throws (mkError (Some m)).

Definition answer (l : state) (c : Gateway.call) : state * Gateway.reply c :=
  match c return state * Gateway.reply c with
  | Gateway.GetAccounts names =>
      (l, Returns (Some (match names with
                         | [n] =>
                             if String.eqb n (custodian l) then [account l]
                             else []
                         | _ => []
                         end)))
  | Gateway.SendOperations ops _ =>
      match ops with
      | [t] =>
          match milli (JS.parseFloat (Gateway.t_amount t)) with
          | Some a =>
              if andb (String.eqb (Gateway.t_from t) (custodian l))
                      (andb (0 <? a)%Z (a <=? funds l)%Z)
              then ({| custodian := custodian l; funds := funds l - a;
                       sent := Datatypes.S (sent l) |},
                    Returns (Gateway.mkConfirmation
                               ("tx" ++ JS.nat_to_string (sent l))))
              else (l, refusal "Account does not have sufficient funds")
          | None => (l, refusal "Invalid asset")
          end
      | _ => (l, refusal "Unsupported operations")
      end
  end.

End Ledger.

(* ===================================================================== *)
(** * Worlds for concrete runs *)
(* ===================================================================== *)

Module World.

(** A ledger in which every lookup finds the one account [a] and every
    transfer is accepted with identifier [tx]. *)
Definition ledger_with (a : Gateway.Account) (tx : string)
  : forall c, Gateway.reply c :=
  fun c =>
    match c return Gateway.reply c with
    | Gateway.GetAccounts _ => Returns (Some [a])
    | Gateway.SendOperations _ _ => Returns (Gateway.mkConfirmation tx)
    end.

(** The answers of the world around the application. *)
Record answers : Type := mkAnswers {
  accounts : list JS.ostring -> outcome (option (list App.Account));
  keychain : App.Attestation -> App.keychain_reply;
  transfer : outcome App.TransactionResponse;
  issue_closed : outcome bool;
  pr_details : outcome App.PrDetails;
  pr_linked : outcome bool;
  http : App.http_reply
}.

Definition make (w : answers) : forall c, App.reply c :=
  fun c =>
    match c return App.reply c with
    | App.GetAccounts names => accounts w names
    | App.RequestCustomJson _ _ _ json _ => keychain w json
    | App.SendHiveTokens _ _ _ _ => transfer w
    | App.IsIssueClosed _ _ _ => issue_closed w
    | App.GetPullRequestDetails _ _ _ => pr_details w
    | App.IsPRLinkedToIssue _ _ _ _ => pr_linked w
    | App.HttpPost _ _ _ => http w
    end.

(** A signer that accepts every request with identifier [tx]. *)
Definition signs (tx : string) (_ : App.Attestation) : App.keychain_reply :=
  App.Responds
    {| App.k_success := true; App.k_error := None;
       App.k_result := Some (App.mkResult (Some tx)) |}.

(** A signer whose user declines every request. *)
Definition declines (m : string) (_ : App.Attestation) : App.keychain_reply :=
  App.Responds
    {| App.k_success := false; App.k_error := Some m; App.k_result := None |}.

(** A world in which every check of a claim passes: the issue is closed, the
    pull request is merged by [login] with merge commit [sha], and it
    references the issue. *)
Definition all_good (bal : string) (sha : JS.ostring) (login tx : string)
  : answers :=
  {| accounts := fun _ => Returns (Some [App.mkAccount bal]);
     keychain := signs tx;
     transfer := Returns (App.mkTx true "ok" None);
     issue_closed := Returns true;
     pr_details := Returns (App.mkPr true (Some (App.mkUser login)) sha);
     pr_linked := Returns true;
     http := App.NetworkError (Some "Network Error") |}.

(** A parser of GitHub URLs that knows one issue and one pull request. *)
Definition parse_known (url : string) : option App.UrlInfo :=
  if String.eqb url "https://github.com/owner/repo/issues/5" then
    Some (App.mkUrl "owner" "repo" 5)
  else if String.eqb url "https://github.com/owner/repo/pull/7" then
    Some (App.mkUrl "owner" "repo" 7)
  else if String.eqb url "https://github.com/other/repo/pull/9" then
    Some (App.mkUrl "other" "repo" 9)
  else None.

Definition issue5 : App.BountyProgram :=
  {| App.b_id := "b1"; App.b_creator := "bob"; App.b_status := App.OPEN;
     App.b_created := "2024-01-01T00:00:00.000Z";
     App.b_data :=
       {| App.title := "Fix the parser"; App.description := "see issue";
          App.githubLink := "https://github.com/owner/repo/issues/5";
          App.prizePool := JS.Dec 30 0 |} |}.

Definition build_env : App.BuildEnv :=
  {| App.VITE_CONTRACT_ACCOUNT := Some "hive-bounty";
     App.VITE_ESCROW_SERVICE_URL := None;
     App.VITE_ESCROW_API_KEY := None |}.

Definition browser (keychain_present : bool) : App.Browser :=
  {| App.hive_keychain := keychain_present;
     App.now := "2024-01-02T00:00:00.000Z" |}.

End World.

(* ===================================================================== *)
(** * Scenarios *)
(* ===================================================================== *)

Module Scenario.

Definition escrow_account : Gateway.Account :=
  {| Gateway.name := "escrow"; Gateway.balance := "100.000 HIVE";
     Gateway.hbd_balance := "0.000 HBD" |}.

Definition custodial_key : Gateway.PrivateKey := Gateway.mkKey "5Kcustodial".

(** [PrivateKey.from] for the runs below: it accepts the custodial key only. *)
Definition PrivateKey_from (s : string) : outcome Gateway.PrivateKey :=
  if String.eqb s "5Kcustodial" then Returns custodial_key
  else Throws (mkError (Some "invalid private key")).

Definition process_env (active_key : JS.ostring) : Gateway.ProcessEnv :=
  {| Gateway.env_ESCROW_ACCOUNT := Some "escrow";
     Gateway.env_ACTIVE_KEY := active_key;
     Gateway.env_API_KEY := None |}.

(** The gateway on its default port, started with or without a key, in front
    of a ledger that holds [escrow_account]. *)
Definition site (active_key : JS.ostring) : Deployment.Site :=
  {| Deployment.origin := "http://localhost:3000";
     Deployment.config := Gateway.load PrivateKey_from (process_env active_key);
     Deployment.ledger := World.ledger_with escrow_account "tx-release" |}.

Definition release_request (key : JS.ostring) (amount : string)
  : Gateway.Request :=
  {| Gateway.method := Gateway.POST; Gateway.path := "/api/release";
     Gateway.x_api_key := key;
     Gateway.req_body :=
       {| Gateway.to := Some "alice"; Gateway.amount := Some amount;
          Gateway.memo := None; Gateway.bountyId := Some "b1";
          Gateway.requester := Some "bob" |} |}.

Definition balance_request (key : JS.ostring) : Gateway.Request :=
  {| Gateway.method := Gateway.GET; Gateway.path := "/api/balance";
     Gateway.x_api_key := key;
     Gateway.req_body := Gateway.mkBody None None None None None |}.

(** A world in which a claim passes every check; the creator holds 10 HIVE. *)
Definition world : forall c, App.reply c :=
  World.make (World.all_good "10.000 HIVE" None "carol-gh" "tx-sign").

Definition claim_of_carol : App.BountyClaim :=
  {| App.c_bountyId := "b1"; App.solver := "carol";
     App.pullRequestUrl := "https://github.com/owner/repo/pull/7";
     App.mergeCommitHash := ""; App.timestamp := "2024-01-02T00:00:00.000Z";
     App.githubUsername := "carol-gh" |}.

(** A custodial account of 100 HIVE on the modelled ledger. *)
Definition hundred : Ledger.state :=
  {| Ledger.custodian := "escrow"; Ledger.funds := 100000; Ledger.sent := 0 |}.


(** A world in which the issue is still open. *)
Definition issue_open : forall c, App.reply c :=
  World.make
    {| World.accounts := fun _ => Returns (Some [App.mkAccount "10.000 HIVE"]);
       World.keychain := World.signs "tx-sign";
       World.transfer := Returns (App.mkTx true "ok" None);
       World.issue_closed := Returns false;
       World.pr_details :=
         Returns (App.mkPr true (Some (App.mkUser "carol-gh")) None);
       World.pr_linked := Returns true;
       World.http := App.NetworkError (Some "Network Error") |}.

(** A world in which the user declines what the signer shows. *)
Definition signer_declines : forall c, App.reply c :=
  World.make
    {| World.accounts := fun _ => Returns (Some [App.mkAccount "10.000 HIVE"]);
       World.keychain := World.declines "user_cancel";
       World.transfer := Returns (App.mkTx true "ok" None);
       World.issue_closed := Returns true;
       World.pr_details :=
         Returns (App.mkPr true (Some (App.mkUser "carol-gh")) None);
       World.pr_linked := Returns true;
       World.http := App.NetworkError (Some "Network Error") |}.

End Scenario.

(* ===================================================================== *)
(** * The vocabulary of the statements *)
(* ===================================================================== *)

(** No call of the gateway submits a transfer. *)
Definition no_transfer (calls : list Gateway.call) : Prop :=
  forallb (fun c => negb (Gateway.is_transfer c)) calls = true.

(** The amount check of the release handler: not a number, or not above 0. *)
Definition invalid_amount (amount : string) : bool :=
  orb (JS.isNaN (JS.parseFloat amount)) (JS.le (JS.parseFloat amount) JS.zero).

(** The ledger reports a custodial balance below the amount. *)
Definition balance_below (cfg : Gateway.Config)
  (ledger : forall c, Gateway.reply c) (amount : string) : Prop :=
  exists a rest,
    ledger (Gateway.GetAccounts [JS.nullish (Gateway.ESCROW_ACCOUNT cfg) ""])
    = Returns (Some (a :: rest))
    /\ JS.lt (JS.parseFloat (Gateway.balance a)) (JS.parseFloat amount) = true.

(** A response that refuses the request with a failure object. *)
Definition refused (resp : Gateway.Response) : Prop :=
  exists st m, resp = Gateway.json st (Gateway.failure m) /\ (400 <= st)%nat.

(** The required fields of a release are there. *)
Definition well_formed (b : Gateway.ReleaseBody) : Prop :=
  JS.truthy (Gateway.to b) = true /\ JS.truthy (Gateway.amount b) = true
  /\ JS.truthy (Gateway.bountyId b) = true /\ JS.truthy (Gateway.requester b) = true.

(** The client posts to the release route of the gateway with its key. *)
Definition reaches (site : Deployment.Site) (env : App.BuildEnv) : Prop :=
  Deployment.strip_prefix (Deployment.origin site)
    (App.ESCROW_SERVICE_URL env ++ "/release") = Some "/api/release"
  /\ App.ESCROW_API_KEY env = Gateway.API_KEY (Deployment.config site).

(** The calls behind the guards of a claim, and the request to the signer. *)
Definition check_issue (i : App.UrlInfo) : App.call :=
  App.IsIssueClosed (App.owner i) (App.repo i) (App.number i).

Definition check_pr (p : App.UrlInfo) : App.call :=
  App.GetPullRequestDetails (App.owner p) (App.repo p) (App.number p).

Definition check_link (i p : App.UrlInfo) : App.call :=
  App.IsPRLinkedToIssue (App.owner i) (App.repo i) (App.number p) (App.number i).

Definition sign_claim (username : string) (data : App.BountyClaim) : App.call :=
  App.RequestCustomJson username "dev-bounties" "Active"
    (App.bounty_claim data) "Claim Development Bounty".

(** The approval request of [verifyAndPayBounty]. *)
Definition sign_approval (window : App.Browser) (username bountyId : string)
  (claim : App.BountyClaim) (bountyAmount : string) : App.call :=
  App.RequestCustomJson username "dev-bounties" "Active"
    (App.bounty_approve bountyId username (App.solver claim) bountyAmount
       (App.now window))
    "Approve Bounty Solution".

(** No call moves or releases funds. *)
Definition no_payment (calls : list App.call) : Prop :=
  forallb (fun c => negb (App.is_payment c)) calls = true.

(** No call asks the signer for an attestation. *)
Definition no_attestation (calls : list App.call) : Prop :=
  forallb (fun c => negb (App.is_attestation c)) calls = true.





(** The transfer the handler builds for a request. *)
Definition transfer_of (cfg : Gateway.Config) (b : Gateway.ReleaseBody)
  : Gateway.Transfer :=
  {| Gateway.t_from := JS.nullish (Gateway.ESCROW_ACCOUNT cfg) "";
     Gateway.t_to := JS.tpl (Gateway.to b);
     Gateway.t_amount := JS.tpl (Gateway.amount b) ++ " HIVE";
     Gateway.t_memo := JS.or_else (Gateway.memo b)
       ("Bounty payment for " ++ JS.tpl (Gateway.bountyId b)
        ++ " requested by " ++ JS.tpl (Gateway.requester b)) |}.

(* ===================================================================== *)
(** * The remaining operations of the sources *)
(* ===================================================================== *)

(** Sequencing of programs: [await p] and then [f]. *)
Fixpoint bind {E : Type} {R : E -> Type} {A B : Type}
  (p : prog E R A) (f : A -> prog E R B) : prog E R B :=
  match p with
  | Ret a => f a
  | Vis e k => Vis e (fun r => bind (k r) f)
  end.

(** ** [checkEscrowBalance] of [src/services/escrow.service.ts] *)

Module Inquiry.

(** The one call of the balance inquiry: a GET through the axios client. *)
Inductive call : Type := HttpGet (url apiKey : string).

Definition reply (c : call) : Type := App.http_reply.

Definition io := prog call reply.

(** [checkEscrowBalance]: the body of the response as it is, or a failure
    object when axios rejects. *)
Definition checkEscrowBalance (env : App.BuildEnv)
  : io (App.promise Gateway.Body) :=
  Vis (HttpGet (JS.or_else (Some (App.ESCROW_SERVICE_URL env))
                  "http://localhost:3000/api" ++ "/balance")
         (JS.or_else (Some (App.ESCROW_API_KEY env)) "your-api-key"))
    (fun r =>
       match App.axios_settle r with
       | App.AxiosOk data => Ret (App.Fulfilled data)
       | App.AxiosFail response_data msg =>
           Ret (App.Fulfilled (Gateway.Api (Gateway.failure (Some
             (JS.or_else
                (JS.or_opt
                   (match response_data with
                    | Some d => App.data_message d
                    | None => None
                    end) msg)
                "Failed to check escrow balance")))))
       end).

(** A GET as the gateway at [origin] answers it, with the calls the gateway
    made to the ledger. *)
Definition get (site : Deployment.Site) (url apiKey : string)
  : App.http_reply * list Gateway.call :=
  match Deployment.strip_prefix (Deployment.origin site) url with
  | Some path =>
      let (resp, calls) :=
        run (Deployment.ledger site)
          (Gateway.app (Deployment.config site)
             {| Gateway.method := Gateway.GET;
                Gateway.path := path;
                Gateway.x_api_key := Some apiKey;
                Gateway.req_body :=
                  Gateway.mkBody None None None None None |}) in
      (App.HttpResponse resp, calls)
  | None => (App.NetworkError (Some "Network Error"), [])
  end.

Definition answer (site : Deployment.Site) (made : list Gateway.call)
  (c : call) : list Gateway.call * reply c :=
  match c return list Gateway.call * reply c with
  | HttpGet url apiKey =>
      let (r, calls) := get site url apiKey in ((made ++ calls)%list, r)
  end.

(** [getBalance]: the client's [checkEscrowBalance] against the gateway. *)
Definition getBalance (site : Deployment.Site) (env : App.BuildEnv)
  : App.promise Gateway.Body * list Gateway.call :=
  let '(calls, res, _) :=
    run_state (answer site) [] (checkEscrowBalance env) in
  (res, calls).

End Inquiry.

(** ** [autoVerifyAndPay] of [src/contracts/bounty.contract.ts] *)

Module Auto.

(** The payment record handed to the signer. *)
Record Payment : Type := mkPayment {
  p_bountyId : string;
  p_solver : string;
  p_amount : string;
  p_timestamp : string
}.

(** The calls of [autoVerifyAndPay]: those of [claimBounty], and the request
    to sign a [bounty_pay] record. *)
Inductive call : Type :=
| Claim (c : App.call)
| RequestPay (account id keyType : string) (data : Payment) (display : string).

Definition reply (c : call) : Type :=
  match c with
  | Claim c' => App.reply c'
  | RequestPay _ _ _ _ _ => App.keychain_reply
  end.

Definition io := prog call reply.

(** A program of the contract as a part of this one. *)
Fixpoint embed {A : Type} (p : App.io A) : io A :=
  match p with
  | Ret a => Ret a
  | Vis e k => Vis (Claim e) (fun r => embed (k r))
  end.

Section BountyContract.

Variable window : App.Browser.
Variable parseGitHubUrl : string -> option App.UrlInfo.
Variable username : string.

(** [autoVerifyAndPay] *)
Definition autoVerifyAndPay (bountyId : string)
  (bountyData : App.BountyProgram) (pullRequestUrl : string)
  : io (App.promise App.TransactionResponse) :=
  let caught (err : JsError) :=
    App.Fulfilled (App.failure
      (JS.or_else (err_message err) "Error processing payment")) in
  bind (embed (App.claimBounty window parseGitHubUrl username bountyId
                 bountyData pullRequestUrl))
    (fun claimed =>
       match claimed with
       (* [await this.claimBounty(...)]: a rejection is thrown inside the
          [try] *)
       | App.Rejected err => Ret (caught err)
       | App.Pending => Ret App.Pending
       | App.Fulfilled claimResult =>
           if negb (App.success claimResult) then
             Ret (App.Fulfilled claimResult)
           else if negb (App.hive_keychain window) then
             Ret (App.Rejected App.keychain_undefined)
           else
             Vis (RequestPay username "dev-bounties" "Active"
                    {| p_bountyId := bountyId;
                       p_solver := username;
                       p_amount :=
                         JS.toString (App.prizePool (App.b_data bountyData));
                       p_timestamp := App.now window |}
                    "Pay Development Bounty")
               (fun k =>
                  match k return io (App.promise App.TransactionResponse) with
                  | App.Raises err => Ret (App.Rejected err)
                  | App.Silent => Ret App.Pending
                  | App.Responds response =>
                      if App.k_success response then
                        Ret (App.Fulfilled
                          {| App.success := true;
                             App.message := "Bounty payment successful!";
                             App.txId := Some (App.result_id response) |})
                      else
                        Ret (App.Fulfilled (App.failure
                          (JS.or_else (App.k_error response)
                             "Failed to process payment")))
                  end)
       end).

End BountyContract.

(** A world for [autoVerifyAndPay]: the world of the contract, and the
    signer's answer to the payment record. *)
Definition world (base : forall c, App.reply c)
  (pay : Payment -> App.keychain_reply) : forall c, reply c :=
  fun c =>
    match c return reply c with
    | Claim c' => base c'
    | RequestPay _ _ _ data _ => pay data
    end.

(** Whether a call moves or releases funds. *)
Definition is_payment (c : call) : bool :=
  match c with
  | Claim c' => App.is_payment c'
  | RequestPay _ _ _ _ _ => false
  end.

(** The calls of the claim inside a trace. *)
Definition claim_calls (t : list call) : list App.call :=
  flat_map (fun c => match c with Claim c' => [c'] | _ => [] end) t.

End Auto.

(** ** More vocabulary *)

(** The client's balance inquiry arrives at the balance route of the gateway
    with its key. *)
Definition reaches_balance (site : Deployment.Site) (env : App.BuildEnv)
  : Prop :=
  Deployment.strip_prefix (Deployment.origin site)
    (App.ESCROW_SERVICE_URL env ++ "/balance") = Some "/api/balance"
  /\ App.ESCROW_API_KEY env = Gateway.API_KEY (Deployment.config site).


(** The calls of [createBounty]. *)
Definition lookup_contract (env : App.BuildEnv) : App.call :=
  App.GetAccounts [App.CONTRACT_ACCOUNT env].

Definition lookup_creator (username : string) : App.call :=
  App.GetAccounts [Some username].

Definition sign_create (window : App.Browser) (username : string)
  (bountyData : App.BountyData) : App.call :=
  App.RequestCustomJson username "dev-bounties" "Active"
    (App.bounty_create username App.OPEN (App.now window) bountyData)
    "Create Development Bounty".

Definition fund (env : App.BuildEnv) (username : string)
  (bountyData : App.BountyData) (response : App.KeychainResponse) : App.call :=
  App.SendHiveTokens username (App.CONTRACT_ACCOUNT env)
    (JS.toString (App.prizePool bountyData))
    ("bounty-create-" ++ App.result_id response).

(** The claim record [claimBounty] builds. *)
Definition claim_record (window : App.Browser) (username bountyId prUrl : string)
  (d : App.PrDetails) (u : App.PrUser) : App.BountyClaim :=
  {| App.c_bountyId := bountyId;
     App.solver := username;
     App.pullRequestUrl := prUrl;
     App.mergeCommitHash := JS.or_else (App.mergeCommitSha d) "";
     App.timestamp := App.now window;
     App.githubUsername := App.login u |}.

(** The payment request of [autoVerifyAndPay]. *)
Definition sign_payment (window : App.Browser) (username bountyId : string)
  (bounty : App.BountyProgram) : Auto.call :=
  Auto.RequestPay username "dev-bounties" "Active"
    {| Auto.p_bountyId := bountyId;
       Auto.p_solver := username;
       Auto.p_amount := JS.toString (App.prizePool (App.b_data bounty));
       Auto.p_timestamp := App.now window |}
    "Pay Development Bounty".

(** The world of the contract inside a world of [autoVerifyAndPay]. *)
Definition claim_world (world : forall c, Auto.reply c)
  : forall c, App.reply c :=
  fun c => world (Auto.Claim c).

(** A program of the gateway that submits no transfer, whatever the ledger
    answers. *)
Fixpoint reads_only {A : Type} (p : Gateway.io A) : Prop :=
  match p with
  | Ret _ => True
  | Vis e k => Gateway.is_transfer e = false /\ forall r, reads_only (k r)
  end.

(** The turns of the first program. *)
Definition is_first (t : turn) : bool :=
  match t with First => true | Second => false end.

(** The calls of the first program in a log. *)
Definition of_first {E : Type} (log : list (turn * E)) : list (turn * E) :=
  filter (fun x => is_first (fst x)) log.

(** ** More scenarios *)

Module Cases.

(** The gateway of the scenarios, with its key. *)
Definition cfg : Gateway.Config :=
  Deployment.config (Scenario.site (Some "5Kcustodial")).

Definition ledger : forall c, Gateway.reply c :=
  World.ledger_with Scenario.escrow_account "tx-release".


(** A creator who holds 100 HIVE, a signer that signs, and a transfer that
    the wallet refuses. *)
Definition funding_fails : forall c, App.reply c :=
  World.make
    {| World.accounts := fun _ => Returns (Some [App.mkAccount "100.000 HIVE"]);
       World.keychain := World.signs "tx-sign";
       World.transfer := Returns (App.mkTx false "user_cancel" None);
       World.issue_closed := Returns true;
       World.pr_details :=
         Returns (App.mkPr true (Some (App.mkUser "carol-gh")) None);
       World.pr_linked := Returns true;
       World.http := App.NetworkError (Some "Network Error") |}.

(** A code host that cannot be reached. *)
Definition code_host_down : forall c, App.reply c :=
  World.make
    {| World.accounts := fun _ => Returns (Some [App.mkAccount "100.000 HIVE"]);
       World.keychain := World.signs "tx-sign";
       World.transfer := Returns (App.mkTx true "ok" None);
       World.issue_closed := Throws (mkError (Some "Request failed"));
       World.pr_details := Throws (mkError (Some "Request failed"));
       World.pr_linked := Throws (mkError (Some "Request failed"));
       World.http := App.NetworkError (Some "Network Error") |}.

End Cases.

(* ===================================================================== *)
(** * Properties *)
(* ===================================================================== *)

(** ** Numbers read and printed as the sources do *)

Example parseFloat_balance : JS.parseFloat "10.000 HIVE" = JS.Dec 10000 (-3).
Proof. reflexivity. Qed.

Example parseFloat_neg5 : JS.parseFloat "-5" = JS.Dec (-5) 0.
Proof. reflexivity. Qed.

Example parseFloat_word : JS.parseFloat "abc" = JS.NaN.
Proof. reflexivity. Qed.

Example parseFloat_exp : JS.parseFloat " 1.5e3x" = JS.Dec 15 2.
Proof. reflexivity. Qed.

Example toString_balance : JS.toString (JS.parseFloat "10.000 HIVE") = "10".
Proof. reflexivity. Qed.

Example toString_frac : JS.toString (JS.parseFloat "-0.0250") = "-0.025".
Proof. reflexivity. Qed.

Example toString_mixed : JS.toString (JS.parseFloat "12.5") = "12.5".
Proof. reflexivity. Qed.

Example toString_big : JS.toString (JS.parseFloat "1e21") = "1e+21".
Proof. reflexivity. Qed.

Example toString_small : JS.toString (JS.parseFloat "0.00000015") = "1.5e-7".
Proof. reflexivity. Qed.

(** ** Runs *)

(** A run makes the first call of the program and goes on with the reply. *)
Lemma run_Vis {E R A} (world : forall e : E, R e) e (k : R e -> prog E R A) :
  run world (Vis e k)
  = (fst (run world (k (world e))), e :: snd (run world (k (world e)))).
Proof. simpl. destruct (run world (k (world e))). reflexivity. Qed.

Section Schedules.
Context {E : Type} {R : E -> Type} {S A : Type}.
Variable answer : S -> forall e : E, S * R e.





End Schedules.

(* --------------------------------------------------------------------- *)
(** ** The gateway: authentication *)


(** The configured key passes it. *)
Lemma verifyApiKey_accepts cfg req next :
  Gateway.x_api_key req = Some (Gateway.API_KEY cfg) ->
  Gateway.API_KEY cfg <> "" ->
  Gateway.verifyApiKey cfg req next = next.
Proof.
  intros Hk Hne. unfold Gateway.verifyApiKey. rewrite Hk. simpl.
  rewrite String.eqb_refl.
  destruct (String.eqb_spec (Gateway.API_KEY cfg) ""); [contradiction|reflexivity].
Qed.

Lemma or_else_nonempty a d : d <> "" -> JS.or_else a d <> "".
Proof.
  intros Hd. unfold JS.or_else. destruct a as [s|]; auto.
  destruct (String.eqb_spec s ""); auto.
Qed.

(** The shared secret of a loaded configuration is never empty. *)
Lemma load_API_KEY_nonempty from env :
  Gateway.API_KEY (Gateway.load from env) <> "".
Proof. simpl. apply or_else_nonempty. discriminate. Qed.


(* --------------------------------------------------------------------- *)
(** ** The gateway: the preconditions of a release *)

(** The release handler refuses, without a transfer, as soon as the amount is
    invalid, the key is missing or the balance is below the amount. *)
Ltac refuse :=
  simpl; split; [do 2 eexists; split; [reflexivity|lia]|reflexivity].

Lemma releaseHandler_refuses cfg b ledger :
  invalid_amount (JS.tpl (Gateway.amount b)) = true
  \/ Gateway.ACTIVE_KEY cfg = None
  \/ balance_below cfg ledger (JS.tpl (Gateway.amount b)) ->
  refused (fst (run ledger (Gateway.releaseHandler cfg b)))
  /\ no_transfer (snd (run ledger (Gateway.releaseHandler cfg b))).
Proof.
  intros H. unfold Gateway.releaseHandler, refused, no_transfer.
  destruct (orb _ _); [refuse|].
  destruct (negb _); [refuse|].
  destruct (Gateway.ACTIVE_KEY cfg) as [key|] eqn:Hkey; [|refuse].
  rewrite run_Vis.
  destruct (ledger (Gateway.GetAccounts _)) as [[[|a rest]|]|err] eqn:Hl;
    try refuse.
  fold (invalid_amount (JS.tpl (Gateway.amount b))).
  destruct (invalid_amount _) eqn:Hinv; [refuse|].
  destruct (JS.lt _ _) eqn:Hlt; [refuse|].
  exfalso. destruct H as [H|[H|(a' & rest' & Ha & Hb)]]; try discriminate.
  unfold balance_below in *. rewrite Hl in Ha. injection Ha as <- <-. congruence.
Qed.


Lemma or_else_Some s d : s <> "" -> JS.or_else (Some s) d = s.
Proof. intros H. simpl. now destruct (String.eqb_spec s ""). Qed.

Lemma ESCROW_API_KEY_nonempty env : App.ESCROW_API_KEY env <> "".
Proof. apply or_else_nonempty. discriminate. Qed.

Lemma ESCROW_SERVICE_URL_nonempty env : App.ESCROW_SERVICE_URL env <> "".
Proof. apply or_else_nonempty. discriminate. Qed.





(** The handler without a key, for a request that has its fields. *)
Lemma releaseHandler_no_key cfg b :
  well_formed b -> JS.truthy (Gateway.ESCROW_ACCOUNT cfg) = true ->
  Gateway.ACTIVE_KEY cfg = None ->
  Gateway.releaseHandler cfg b
  = Ret (Gateway.json 500
           (Gateway.failure (Some "Private key not configured or invalid"))).
Proof.
  intros (H1 & H2 & H3 & H4) He Hk. unfold Gateway.releaseHandler.
  rewrite H1, H2, H3, H4, He, Hk. reflexivity.
Qed.




(* --------------------------------------------------------------------- *)
(** ** The gateway without a key *)

(** The key is not loaded when none is given or [PrivateKey.from] throws. *)
Lemma load_no_key from env :
  JS.truthy (Gateway.env_ACTIVE_KEY env) = false
  \/ (exists k err, Gateway.env_ACTIVE_KEY env = Some k /\ from k = Throws err) ->
  Gateway.ACTIVE_KEY (Gateway.load from env) = None.
Proof.
  intros [H | (k & err & Hk & Hf)]; cbn [Gateway.load Gateway.ACTIVE_KEY].
  - destruct (Gateway.env_ACTIVE_KEY env) as [k|]; [|reflexivity].
    now rewrite H.
  - rewrite Hk, Hf. now destruct (JS.truthy (Some k)).
Qed.

(** C7: when [ACTIVE_KEY] is absent or rejected by [PrivateKey.from] at
    startup, every [POST /api/release] is refused with [success: false] and
    submits no transfer, and a request that passes authentication and has its
    fields gets "Private key not configured or invalid" before the ledger is
    asked anything; [GET /api/balance] still answers with the balances of the
    custodial account whenever the account is configured and the ledger finds
    it. *)
Theorem missing_key_disables_release_only :
  forall (PrivateKey_from : string -> outcome Gateway.PrivateKey)
         (env : Gateway.ProcessEnv),
    JS.truthy (Gateway.env_ACTIVE_KEY env) = false
    \/ (exists k err, Gateway.env_ACTIVE_KEY env = Some k
                      /\ PrivateKey_from k = Throws err) ->
    let cfg := Gateway.load PrivateKey_from env in
    (forall (req : Gateway.Request) (ledger : forall c, Gateway.reply c),
        Gateway.method req = Gateway.POST ->
        Gateway.path req = "/api/release" ->
        refused (fst (run ledger (Gateway.app cfg req)))
        /\ no_transfer (snd (run ledger (Gateway.app cfg req)))
        /\ (Gateway.x_api_key req = Some (Gateway.API_KEY cfg) ->
            well_formed (Gateway.req_body req) ->
            JS.truthy (Gateway.ESCROW_ACCOUNT cfg) = true ->
            run ledger (Gateway.app cfg req)
            = (Gateway.json 500 (Gateway.failure
                 (Some "Private key not configured or invalid")), [])))
    /\ (forall (req : Gateway.Request) (ledger : forall c, Gateway.reply c)
               (a : Gateway.Account) (others : list Gateway.Account),
           Gateway.method req = Gateway.GET ->
           Gateway.path req = "/api/balance" ->
           Gateway.x_api_key req = Some (Gateway.API_KEY cfg) ->
           JS.truthy (Gateway.ESCROW_ACCOUNT cfg) = true ->
           ledger (Gateway.GetAccounts
                     [JS.nullish (Gateway.ESCROW_ACCOUNT cfg) ""])
           = Returns (Some (a :: others)) ->
           run ledger (Gateway.app cfg req)
           = (Gateway.json 200
                {| Gateway.success := true; Gateway.message := None;
                   Gateway.j_balance := Some (Gateway.balance a);
                   Gateway.j_hbd_balance := Some (Gateway.hbd_balance a);
                   Gateway.transaction_id := None |},
              [Gateway.GetAccounts
                 [JS.nullish (Gateway.ESCROW_ACCOUNT cfg) ""]])).
Proof.
  intros from env Hkey cfg.
  pose proof (load_no_key from env Hkey) as Hnone. fold cfg in Hnone.
  pose proof (load_API_KEY_nonempty from env) as Hne. fold cfg in Hne.
  split.
  - intros req ledger Hm Hp.
    assert (Happ : Gateway.app cfg req
                   = Gateway.verifyApiKey cfg req
                       (Gateway.releaseHandler cfg (Gateway.req_body req))).
    { unfold Gateway.app. now rewrite Hm, Hp. }
    rewrite Happ. split; [|split].
    + unfold Gateway.verifyApiKey. destruct (andb _ _).
      * apply releaseHandler_refuses. now right; left.
      * exists 401, (Some "Unauthorized"). split; [reflexivity|lia].
    + unfold Gateway.verifyApiKey. destruct (andb _ _).
      * apply releaseHandler_refuses. now right; left.
      * reflexivity.
    + intros Hk Hwf He. rewrite (verifyApiKey_accepts _ _ _ Hk Hne).
      now rewrite (releaseHandler_no_key cfg _ Hwf He Hnone).
  - intros req ledger a others Hm Hp Hk He Hl.
    unfold Gateway.app. rewrite Hm, Hp. cbn [String.eqb Ascii.eqb Bool.eqb andb].
    rewrite (verifyApiKey_accepts _ _ _ Hk Hne).
    unfold Gateway.balanceHandler. rewrite He. cbn [negb].
    rewrite run_Vis, Hl. reflexivity.
Qed.

(* --------------------------------------------------------------------- *)
(** ** [claimBounty] *)

Section Claim.
Variable window : App.Browser.
Variable parse : string -> option App.UrlInfo.
Variable username bountyId : string.
Variable bounty : App.BountyProgram.
Variable prUrl : string.
Variable world : forall c, App.reply c.
Variables i p : App.UrlInfo.
Hypothesis Hi : parse (App.githubLink (App.b_data bounty)) = Some i.
Hypothesis Hp : parse prUrl = Some p.

Let claim :=
  run world (App.claimBounty window parse username bountyId bounty prUrl).

(** The guards one by one: each lemma assumes that the guards before it
    pass. *)
Lemma claim_other_repo :
  App.owner i <> App.owner p \/ App.repo i <> App.repo p ->
  claim = (App.Fulfilled (App.failure
             "Pull request must be in the same repository as the issue"), []).
Proof.
  intros H. unfold claim, App.claimBounty. rewrite Hi, Hp.
  destruct (String.eqb_spec (App.owner i) (App.owner p));
    destruct (String.eqb_spec (App.repo i) (App.repo p)); try reflexivity.
  tauto.
Qed.

Hypothesis Ho : App.owner i = App.owner p.
Hypothesis Hr : App.repo i = App.repo p.

Ltac enter :=
  unfold claim, App.claimBounty;
  rewrite Hi, Hp, (proj2 (String.eqb_eq _ _) Ho), (proj2 (String.eqb_eq _ _) Hr);
  cbn [negb orb].

Ltac answer H :=
  cbn [run]; fold (check_issue i) (check_pr p) (check_link i p);
  rewrite H; cbn [negb].

Lemma claim_issue_open :
  world (check_issue i) = Returns false ->
  claim = (App.Fulfilled (App.failure
             "The issue must be closed before claiming the bounty"),
           [check_issue i]).
Proof. intros H1. enter. answer H1. reflexivity. Qed.

Section Closed.
Hypothesis H1 : world (check_issue i) = Returns true.
Variable d : App.PrDetails.
Hypothesis H2 : world (check_pr p) = Returns d.

Lemma claim_pr_unmerged :
  App.merged d = false ->
  claim = (App.Fulfilled (App.failure
             "The pull request must be merged before claiming the bounty"),
           [check_issue i; check_pr p]).
Proof. intros Hm. enter. answer H1. answer H2. rewrite Hm. reflexivity. Qed.

Lemma claim_pr_no_author :
  App.merged d = true -> App.user d = None ->
  claim = (App.Fulfilled (App.failure "Could not verify pull request creator"),
           [check_issue i; check_pr p]).
Proof.
  intros Hm Hu. enter. answer H1. answer H2. rewrite Hm, Hu. reflexivity.
Qed.

Lemma claim_pr_unlinked :
  App.merged d = true -> App.user d <> None ->
  world (check_link i p) = Returns false ->
  claim = (App.Fulfilled (App.failure
             "The pull request must reference the issue it resolves"),
           [check_issue i; check_pr p; check_link i p]).
Proof.
  intros Hm Hu H3. enter. answer H1. answer H2. rewrite Hm. cbn [negb].
  destruct (App.user d) as [u|]; [|congruence]. answer H3. reflexivity.
Qed.

Lemma claim_record_submitted (u : App.PrUser) :
  App.merged d = true -> App.user d = Some u ->
  world (check_link i p) = Returns true ->
  App.hive_keychain window = true ->
  snd claim
  = [check_issue i; check_pr p; check_link i p;
     sign_claim username
       {| App.c_bountyId := bountyId;
          App.solver := username;
          App.pullRequestUrl := prUrl;
          App.mergeCommitHash := JS.or_else (App.mergeCommitSha d) "";
          App.timestamp := App.now window;
          App.githubUsername := App.login u |}].
Proof.
  intros Hm Hu H3 Hk. enter. answer H1. answer H2. rewrite Hm, Hu. cbn [negb].
  answer H3. rewrite Hk. cbn [negb run]. fold (check_link i p).
  match goal with
  | |- context [world (App.RequestCustomJson ?a ?b ?c ?j ?l)] =>
      destruct (world (App.RequestCustomJson a b c j l)) as [r| |]
  end; [destruct (App.k_success r)| |]; reflexivity.
Qed.

(** Without the signer in the page, a claim that passes every guard ends in
    a rejected promise: the promise is returned without being awaited. *)
Lemma claim_without_keychain (u : App.PrUser) :
  App.merged d = true -> App.user d = Some u ->
  world (check_link i p) = Returns true ->
  App.hive_keychain window = false ->
  claim = (App.Rejected App.keychain_undefined,
           [check_issue i; check_pr p; check_link i p]).
Proof.
  intros Hm Hu H3 Hk. enter. answer H1. answer H2. rewrite Hm, Hu. cbn [negb].
  answer H3. rewrite Hk. reflexivity.
Qed.

End Closed.

(** The calls of a claim are the guards' calls in their order, up to the
    first one that does not pass, and then the request to the signer. *)
Lemma claim_calls_in_order :
  snd claim = []
  \/ snd claim = [check_issue i]
  \/ snd claim = [check_issue i; check_pr p]
  \/ snd claim = [check_issue i; check_pr p; check_link i p]
  \/ exists data,
       snd claim = [check_issue i; check_pr p; check_link i p;
                    sign_claim username data].
Proof.
  enter. cbn [run]. fold (check_issue i) (check_pr p) (check_link i p).
  destruct (world (check_issue i)) as [[|]|e1]; cbn [negb run];
    [|right; left; reflexivity..].
  fold (check_pr p).
  destruct (world (check_pr p)) as [d|e2]; cbn [negb run];
    [|right; right; left; reflexivity].
  destruct (App.merged d); cbn [negb run]; [|right; right; left; reflexivity].
  destruct (App.user d) as [u|]; cbn [run]; [|right; right; left; reflexivity].
  fold (check_link i p).
  destruct (world (check_link i p)) as [[|]|e3]; cbn [negb run];
    [|right; right; right; left; reflexivity..].
  destruct (App.hive_keychain window); cbn [negb run];
    [|right; right; right; left; reflexivity].
  right; right; right; right. eexists.
  match goal with
  | |- context [world (App.RequestCustomJson ?a ?b ?c ?j ?l)] =>
      destruct (world (App.RequestCustomJson a b c j l)) as [r| |]
  end; [destruct (App.k_success r)| |]; reflexivity.
Qed.

End Claim.

Lemma claim_invalid_urls window parse username bountyId bounty prUrl
  (world : forall c, App.reply c) :
  parse (App.githubLink (App.b_data bounty)) = None \/ parse prUrl = None ->
  run world (App.claimBounty window parse username bountyId bounty prUrl)
  = (App.Fulfilled (App.failure "Invalid GitHub URLs"), []).
Proof.
  intros [H|H]; unfold App.claimBounty; rewrite H; [reflexivity|].
  now destruct (parse (App.githubLink (App.b_data bounty))).
Qed.

(** C1: [claimBounty] evaluates its guards in the order URL parse and same
    repository, issue closed, pull request merged (and its author known),
    pull request linked.  The first guard that fails ends the evaluation with
    [success: false] and the message of that guard (for an open issue: "The
    issue must be closed before claiming the bounty"), and the calls made are
    exactly those of the guards up to it: no later guard is evaluated. *)
Theorem claimBounty_guards_in_order :
  forall (window : App.Browser) (parse : string -> option App.UrlInfo)
         (username bountyId : string) (bounty : App.BountyProgram)
         (prUrl : string) (world : forall c, App.reply c),
    let claim :=
      run world (App.claimBounty window parse username bountyId bounty prUrl) in
    let rejects (m : string) (calls : list App.call) :=
      claim = (App.Fulfilled (App.failure m), calls) in
    (parse (App.githubLink (App.b_data bounty)) = None \/ parse prUrl = None ->
     rejects "Invalid GitHub URLs" [])
    /\ forall i p : App.UrlInfo,
         parse (App.githubLink (App.b_data bounty)) = Some i ->
         parse prUrl = Some p ->
         (App.owner i <> App.owner p \/ App.repo i <> App.repo p ->
          rejects "Pull request must be in the same repository as the issue" [])
         /\ (App.owner i = App.owner p -> App.repo i = App.repo p ->
             (world (check_issue i) = Returns false ->
              rejects "The issue must be closed before claiming the bounty"
                [check_issue i])
             /\ (forall d : App.PrDetails,
                   world (check_issue i) = Returns true ->
                   world (check_pr p) = Returns d ->
                   (App.merged d = false ->
                    rejects "The pull request must be merged before claiming the bounty"
                      [check_issue i; check_pr p])
                   /\ (App.merged d = true -> App.user d = None ->
                       rejects "Could not verify pull request creator"
                         [check_issue i; check_pr p])
                   /\ (App.merged d = true -> App.user d <> None ->
                       world (check_link i p) = Returns false ->
                       rejects "The pull request must reference the issue it resolves"
                         [check_issue i; check_pr p; check_link i p]))
             /\ (snd claim = []
                 \/ snd claim = [check_issue i]
                 \/ snd claim = [check_issue i; check_pr p]
                 \/ snd claim = [check_issue i; check_pr p; check_link i p]
                 \/ exists data,
                      snd claim = [check_issue i; check_pr p; check_link i p;
                                   sign_claim username data])).
Proof.
  intros window parse username bountyId bounty prUrl world claim rejects.
  subst rejects claim. split.
  - apply claim_invalid_urls.
  - intros i p Hi Hp. split.
    + intros H. eapply claim_other_repo; eassumption.
    + intros Ho Hr. split; [|split].
      * intros H. eapply claim_issue_open; eassumption.
      * intros d H1 H2. split; [|split]; intros.
        -- eapply claim_pr_unmerged; eassumption.
        -- eapply claim_pr_no_author; eassumption.
        -- eapply claim_pr_unlinked; eassumption.
      * eapply claim_calls_in_order; eassumption.
Qed.

(** C10: when every guard passes and [getPullRequestDetails] reports no
    merge commit ([mergeCommitSha] null), the claim record handed to the
    signer carries [mergeCommitHash] equal to the empty string. *)
Theorem claimBounty_missing_merge_commit :
  forall (window : App.Browser) (parse : string -> option App.UrlInfo)
         (username bountyId : string) (bounty : App.BountyProgram)
         (prUrl : string) (world : forall c, App.reply c)
         (i p : App.UrlInfo) (d : App.PrDetails) (u : App.PrUser),
    parse (App.githubLink (App.b_data bounty)) = Some i ->
    parse prUrl = Some p ->
    App.owner i = App.owner p -> App.repo i = App.repo p ->
    world (check_issue i) = Returns true ->
    world (check_pr p) = Returns d ->
    App.merged d = true -> App.user d = Some u ->
    world (check_link i p) = Returns true ->
    App.mergeCommitSha d = None ->
    App.hive_keychain window = true ->
    snd (run world
           (App.claimBounty window parse username bountyId bounty prUrl))
    = [check_issue i; check_pr p; check_link i p;
       sign_claim username
         {| App.c_bountyId := bountyId;
            App.solver := username;
            App.pullRequestUrl := prUrl;
            App.mergeCommitHash := "";
            App.timestamp := App.now window;
            App.githubUsername := App.login u |}].
Proof.
  intros window parse username bountyId bounty prUrl world i p d u
         Hi Hp Ho Hr H1 H2 Hm Hu H3 Hsha Hk.
  rewrite (claim_record_submitted window parse username bountyId bounty prUrl
             world i p Hi Hp Ho Hr H1 d H2 u Hm Hu H3 Hk).
  now rewrite Hsha.
Qed.

(* ------------------------------------------------------------------ *)

(* --------------------------------------------------------------------- *)
(** ** [verifyAndPayBounty] *)

Section Pay.
Variable env : App.BuildEnv.
Variable window : App.Browser.
Variable username bountyId : string.
Variable claim : App.BountyClaim.
Variable bountyAmount : string.
Variable world : forall c, App.reply c.

Let pay := run world
  (App.verifyAndPayBounty env window username bountyId claim bountyAmount).
Let approve := sign_approval window username bountyId claim bountyAmount.

(** The release of the funds as [verifyAndPayBounty] asks for it. *)
Let release :=
  App.releaseEscrowFunds env (App.solver claim) bountyAmount bountyId username
    (Some ("Bounty payment for " ++ bountyId)).

(** Without the signer in the page the approval throws inside the [try]:
    the payment ends with a failure result, and nothing is called. *)
Lemma pay_without_keychain :
  App.hive_keychain window = false ->
  pay = (App.Fulfilled (App.failure ("Error processing payment: "
           ++ JS.tpl (err_message App.keychain_undefined))), []).
Proof. intros H. unfold pay, App.verifyAndPayBounty. now rewrite H. Qed.

(** With the signer, the payment follows the signer's answer. *)
Lemma pay_with_keychain :
  App.hive_keychain window = true ->
  pay = match world approve with
        | App.Raises err =>
            (App.Fulfilled (App.failure ("Error processing payment: "
               ++ JS.tpl (err_message err))), [approve])
        | App.Silent => (App.Pending, [approve])
        | App.Responds response =>
            if App.k_success response then
              (fst (run world release), approve :: snd (run world release))
            else (App.Fulfilled (App.approvalResult response), [approve])
        end.
Proof.
  intros H. unfold pay, App.verifyAndPayBounty. rewrite H. cbn [negb run].
  fold release. unfold approve, sign_approval.
  match goal with
  | |- context [world (App.RequestCustomJson ?a ?b ?c ?j ?l)] =>
      destruct (world (App.RequestCustomJson a b c j l)) as [r|err|]
  end; try reflexivity.
  unfold App.approvalResult. destruct (App.k_success r); cbn [App.success negb].
  - now destruct (run world release).
  - reflexivity.
Qed.

(** After an approval that succeeded, the result is the result of the
    release and nothing else. *)
Lemma pay_after_approval (response : App.KeychainResponse) :
  App.hive_keychain window = true ->
  world approve = App.Responds response ->
  App.k_success response = true ->
  pay = (fst (run world release), approve :: snd (run world release)).
Proof. intros Hk Hw Hs. rewrite (pay_with_keychain Hk), Hw, Hs. reflexivity. Qed.

(** A release that fails carries no transaction identifier. *)
Lemma release_failure_has_no_id (r : App.TransactionResponse) :
  fst (run world release) = App.Fulfilled r ->
  App.success r = false -> App.txId r = None.
Proof.
  unfold release, App.releaseEscrowFunds. cbn [run].
  destruct (App.axios_settle _) as [data|rd m];
    [destruct (App.data_success data)|]; cbn [run fst];
    intros [= <-]; [discriminate|reflexivity..].
Qed.

End Pay.

(** C2: [verifyAndPayBounty] has two phases.  The approval is requested
    first: it is the first call, if any call is made.  When the signer
    answers with a failure, the result is the approval's failure result as it
    is and the only call made is the approval request.  The gateway is called
    only after an approval that succeeded. *)
Theorem verifyAndPay_stops_after_failed_approval :
  forall (env : App.BuildEnv) (window : App.Browser)
         (username bountyId : string) (claim : App.BountyClaim)
         (bountyAmount : string) (world : forall c, App.reply c),
    let pay :=
      run world
        (App.verifyAndPayBounty env window username bountyId claim
           bountyAmount) in
    let approve := sign_approval window username bountyId claim bountyAmount in
    (snd pay = [] \/ exists rest, snd pay = approve :: rest)
    /\ (forall response : App.KeychainResponse,
          App.hive_keychain window = true ->
          world approve = App.Responds response ->
          App.k_success response = false ->
          pay = (App.Fulfilled (App.approvalResult response), [approve])
          /\ App.approvalResult response
             = {| App.success := false;
                  App.message := JS.or_else (App.k_error response)
                                   "Failed to record approval";
                  App.txId := None |})
    /\ (no_payment (snd pay)
        \/ (App.hive_keychain window = true
            /\ exists response,
                 world approve = App.Responds response
                 /\ App.k_success response = true)).
Proof.
  intros env window username bountyId claim bountyAmount world pay approve.
  subst pay approve.
  destruct (App.hive_keychain window) eqn:Hk.
  - rewrite (pay_with_keychain env window username bountyId claim bountyAmount
               world Hk).
    split; [|split].
    + right.
      destruct (world _) as [r|err|]; [destruct (App.k_success r)| |];
        cbn [snd]; eauto.
    + intros response _ Hw Hs. rewrite Hw, Hs. split; [reflexivity|].
      unfold App.approvalResult. now rewrite Hs.
    + destruct (world _) as [r|err|] eqn:Hw;
        [destruct (App.k_success r) eqn:Hs| |]; try (left; reflexivity).
      right. split; [reflexivity|]. eauto.
  - rewrite (pay_without_keychain env window username bountyId claim
               bountyAmount world Hk).
    split; [|split].
    + now left.
    + discriminate.
    + now left.
Qed.

(** C3 fails on the code: the approval is signed ("tx-sign") and the release
    is then refused by the gateway, the custodial balance being 100 HIVE for
    a payment of 300.  The result is the failure of the release alone: its
    message does not say that the approval was recorded, and it carries no
    transaction identifier. *)
Theorem verifyAndPay_unpaid_approval_is_dropped :
  Deployment.verifyAndPay (Scenario.site (Some "5Kcustodial")) World.build_env
    (World.browser true) Scenario.world "bob" "b1" Scenario.claim_of_carol
    "300"
  = (App.Fulfilled
       {| App.success := false;
          App.message := "Insufficient balance in escrow account. Available: 100 HIVE, Requested: 300 HIVE";
          App.txId := None |},
     [sign_approval (World.browser true) "bob" "b1" Scenario.claim_of_carol
        "300";
      App.HttpPost "http://localhost:3000/api/release" "your-api-key"
        {| Gateway.to := Some "carol"; Gateway.amount := Some "300";
           Gateway.memo := Some "Bounty payment for b1";
           Gateway.bountyId := Some "b1"; Gateway.requester := Some "bob" |}],
     [Gateway.GetAccounts ["escrow"]]).
Proof. reflexivity. Qed.

(* --------------------------------------------------------------------- *)
(** ** [createBounty] *)

(** C5: when the ledger reports for the creator a balance below the prize
    pool, [createBounty] ends with [success: false] and has asked for no
    attestation and made no transfer; once the contract account is found the
    message is the insufficient-balance one, naming both amounts, and the two
    account lookups are the only calls. *)
Theorem createBounty_insufficient_balance :
  forall (env : App.BuildEnv) (window : App.Browser) (username : string)
         (bountyData : App.BountyData) (world : forall c, App.reply c)
         (account : App.Account) (others : list App.Account),
    let create := run world (App.createBounty env window username bountyData) in
    let userBalance := JS.parseFloat (App.balance account) in
    let bountyAmount :=
      JS.parseFloat (JS.toString (App.prizePool bountyData)) in
    world (App.GetAccounts [Some username])
    = Returns (Some (account :: others)) ->
    JS.lt userBalance bountyAmount = true ->
    (exists r, fst create = App.Fulfilled r /\ App.success r = false)
    /\ no_attestation (snd create)
    /\ no_payment (snd create)
    /\ (forall contract contracts,
          world (App.GetAccounts [App.CONTRACT_ACCOUNT env])
          = Returns (Some (contract :: contracts)) ->
          create
          = (App.Fulfilled (App.failure
               ("Insufficient balance. You have " ++ JS.toString userBalance
                ++ " HIVE but the bounty requires "
                ++ JS.toString bountyAmount ++ " HIVE")),
             [App.GetAccounts [App.CONTRACT_ACCOUNT env];
              App.GetAccounts [Some username]])).
Proof.
  intros env window username bountyData world account others
         create userBalance bountyAmount Hw Hlt.
  subst create. unfold App.createBounty. cbn [run].
  destruct (world (App.GetAccounts [App.CONTRACT_ACCOUNT env]))
    as [[[|c cs]|]|err]; cbn [run fst snd];
    try (repeat split; [eexists; split; reflexivity | discriminate]).
  rewrite Hw. fold userBalance bountyAmount. rewrite Hlt. cbn [run fst snd].
  repeat split. eexists; split; reflexivity.
Qed.

(** Without the signer in the page, [createBounty] says so in its result. *)
Lemma createBounty_without_keychain env window username bountyData
  (world : forall c, App.reply c) contract contracts account others :
  world (App.GetAccounts [App.CONTRACT_ACCOUNT env])
  = Returns (Some (contract :: contracts)) ->
  world (App.GetAccounts [Some username])
  = Returns (Some (account :: others)) ->
  JS.lt (JS.parseFloat (App.balance account))
        (JS.parseFloat (JS.toString (App.prizePool bountyData))) = false ->
  App.hive_keychain window = false ->
  run world (App.createBounty env window username bountyData)
  = (App.Fulfilled (App.failure "Hive Keychain extension not found"),
     [App.GetAccounts [App.CONTRACT_ACCOUNT env];
      App.GetAccounts [Some username]]).
Proof.
  intros Hc Hu Hlt Hk. unfold App.createBounty. cbn [run].
  rewrite Hc. cbn [run]. rewrite Hu, Hlt, Hk. reflexivity.
Qed.

(* --------------------------------------------------------------------- *)
(** ** Releases against the ledger *)

(** *** Printing an amount and reading it back *)



















Section OneRelease.
Variable cfg : Gateway.Config.
Variable key : Gateway.PrivateKey.
Variable l : Ledger.state.
Variable b : Gateway.ReleaseBody.
Variable a : Z.
Hypothesis Hkey : Gateway.ACTIVE_KEY cfg = Some key.
Hypothesis Hacct : Gateway.ESCROW_ACCOUNT cfg = Some (Ledger.custodian l).
Hypothesis Hname : Ledger.custodian l <> "".
Hypothesis Hto : JS.truthy (Gateway.to b) = true.
Hypothesis Hid : JS.truthy (Gateway.bountyId b) = true.
Hypothesis Hreq : JS.truthy (Gateway.requester b) = true.
Hypothesis Hamount : Gateway.amount b = Some (Ledger.show_milli a).
Hypothesis Ha : (0 < a)%Z.
Hypothesis Hfunds : (0 <= Ledger.funds l)%Z.


End OneRelease.


(* --------------------------------------------------------------------- *)
(** ** The statements at concrete runs *)



(** C7 at a gateway started with a key that [PrivateKey.from] rejects. *)
Lemma missing_key_witness :
  run (World.ledger_with Scenario.escrow_account "tx-release")
    (Gateway.app (Gateway.load Scenario.PrivateKey_from
                    (Scenario.process_env (Some "not-a-key")))
       (Scenario.release_request (Some "your-api-key") "30"))
  = (Gateway.json 500 (Gateway.failure
       (Some "Private key not configured or invalid")), [])
  /\ run (World.ledger_with Scenario.escrow_account "tx-release")
       (Gateway.app (Gateway.load Scenario.PrivateKey_from
                       (Scenario.process_env (Some "not-a-key")))
          (Scenario.balance_request (Some "your-api-key")))
     = (Gateway.json 200
          {| Gateway.success := true; Gateway.message := None;
             Gateway.j_balance := Some "100.000 HIVE";
             Gateway.j_hbd_balance := Some "0.000 HBD";
             Gateway.transaction_id := None |},
        [Gateway.GetAccounts ["escrow"]]).
Proof.
  destruct (missing_key_disables_release_only Scenario.PrivateKey_from
              (Scenario.process_env (Some "not-a-key"))) as [Hrel Hbal].
  - right. exists "not-a-key", (mkError (Some "invalid private key")).
    split; reflexivity.
  - split.
    + destruct (Hrel (Scenario.release_request (Some "your-api-key") "30")
                  (World.ledger_with Scenario.escrow_account "tx-release")
                  eq_refl eq_refl) as (_ & _ & H).
      apply H; [reflexivity | repeat split | reflexivity].
    + apply (Hbal (Scenario.balance_request (Some "your-api-key"))
               (World.ledger_with Scenario.escrow_account "tx-release")
               Scenario.escrow_account []); reflexivity.
Defined.

(** C1 at issue 5 of [owner/repo], still open. *)
Lemma claimBounty_open_issue :
  run Scenario.issue_open
    (App.claimBounty (World.browser true) World.parse_known "carol" "b1"
       World.issue5 "https://github.com/owner/repo/pull/7")
  = (App.Fulfilled (App.failure
       "The issue must be closed before claiming the bounty"),
     [App.IsIssueClosed "owner" "repo" 5]).
Proof.
  destruct (claimBounty_guards_in_order (World.browser true) World.parse_known
              "carol" "b1" World.issue5 "https://github.com/owner/repo/pull/7"
              Scenario.issue_open) as [_ H].
  destruct (H (App.mkUrl "owner" "repo" 5) (App.mkUrl "owner" "repo" 7)
              eq_refl eq_refl) as [_ Hsame].
  destruct (Hsame eq_refl eq_refl) as [Hopen _].
  exact (Hopen eq_refl).
Defined.

(** C10 at a merged pull request without a merge commit. *)
Lemma claimBounty_missing_merge_commit_witness :
  snd (run Scenario.world
         (App.claimBounty (World.browser true) World.parse_known "carol" "b1"
            World.issue5 "https://github.com/owner/repo/pull/7"))
  = [App.IsIssueClosed "owner" "repo" 5;
     App.GetPullRequestDetails "owner" "repo" 7;
     App.IsPRLinkedToIssue "owner" "repo" 7 5;
     App.RequestCustomJson "carol" "dev-bounties" "Active"
       (App.bounty_claim
          {| App.c_bountyId := "b1"; App.solver := "carol";
             App.pullRequestUrl := "https://github.com/owner/repo/pull/7";
             App.mergeCommitHash := "";
             App.timestamp := "2024-01-02T00:00:00.000Z";
             App.githubUsername := "carol-gh" |})
       "Claim Development Bounty"].
Proof.
  exact (claimBounty_missing_merge_commit (World.browser true)
           World.parse_known "carol" "b1" World.issue5
           "https://github.com/owner/repo/pull/7" Scenario.world
           (App.mkUrl "owner" "repo" 5) (App.mkUrl "owner" "repo" 7)
           (App.mkPr true (Some (App.mkUser "carol-gh")) None)
           (App.mkUser "carol-gh")
           eq_refl eq_refl eq_refl eq_refl eq_refl eq_refl eq_refl eq_refl
           eq_refl eq_refl eq_refl).
Defined.

(** C2 at an approval the user declines. *)
Lemma verifyAndPay_declined_approval :
  run Scenario.signer_declines
    (App.verifyAndPayBounty World.build_env (World.browser true) "bob" "b1"
       Scenario.claim_of_carol "30")
  = (App.Fulfilled (App.failure "user_cancel"),
     [App.RequestCustomJson "bob" "dev-bounties" "Active"
        (App.bounty_approve "b1" "bob" "carol" "30" "2024-01-02T00:00:00.000Z")
        "Approve Bounty Solution"]).
Proof.
  destruct (verifyAndPay_stops_after_failed_approval World.build_env
              (World.browser true) "bob" "b1" Scenario.claim_of_carol "30"
              Scenario.signer_declines) as (_ & H & _).
  destruct (H {| App.k_success := false; App.k_error := Some "user_cancel";
                 App.k_result := None |} eq_refl eq_refl eq_refl) as [Hpay _].
  exact Hpay.
Defined.

(** C5 at a creator with 10 HIVE and a prize pool of 30. *)
Lemma createBounty_insufficient_balance_witness :
  run Scenario.world
    (App.createBounty World.build_env (World.browser true) "bob"
       (App.b_data World.issue5))
  = (App.Fulfilled (App.failure
       "Insufficient balance. You have 10 HIVE but the bounty requires 30 HIVE"),
     [App.GetAccounts [Some "hive-bounty"]; App.GetAccounts [Some "bob"]]).
Proof.
  destruct (createBounty_insufficient_balance World.build_env
              (World.browser true) "bob" (App.b_data World.issue5)
              Scenario.world (App.mkAccount "10.000 HIVE") []
              eq_refl eq_refl) as (_ & _ & _ & H).
  exact (H (App.mkAccount "10.000 HIVE") [] eq_refl).
Defined.



(** C6 fails for [claimBounty]: without [window.hive_keychain], a claim that
    passes every guard ends in a rejected promise, not in a result with
    [success: false]. *)
Theorem claimBounty_without_keychain_rejects :
  run Scenario.world
    (App.claimBounty (World.browser false) World.parse_known "carol" "b1"
       World.issue5 "https://github.com/owner/repo/pull/7")
  = (App.Rejected App.keychain_undefined,
     [App.IsIssueClosed "owner" "repo" 5;
      App.GetPullRequestDetails "owner" "repo" 7;
      App.IsPRLinkedToIssue "owner" "repo" 7 5]).
Proof. reflexivity. Qed.

(* ===================================================================== *)
(** * Further properties of the sources *)
(* ===================================================================== *)

(** ** The gateway as a whole *)

(** What passes the middleware carries the configured key, and the key is
    not empty. *)
Lemma verifyApiKey_passes cfg req next :
  Gateway.verifyApiKey cfg req next
  = Ret (Gateway.json 401 (Gateway.failure (Some "Unauthorized")))
  \/ (Gateway.verifyApiKey cfg req next = next
      /\ Gateway.x_api_key req = Some (Gateway.API_KEY cfg)
      /\ Gateway.API_KEY cfg <> "").
Proof.
  unfold Gateway.verifyApiKey.
  destruct (Gateway.x_api_key req) as [k|]; cbn [JS.truthy JS.nullish andb];
    [|now left].
  destruct (String.eqb_spec k "") as [->|Hk]; cbn [negb andb]; [now left|].
  destruct (String.eqb_spec k (Gateway.API_KEY cfg)) as [->|Hne]; [|now left].
  right. repeat split; assumption.
Qed.

(** The routes: the two routes of the API, the root, and nothing else. *)
Lemma app_routes cfg req :
  (Gateway.method req = Gateway.GET /\ Gateway.path req = "/api/balance"
   /\ Gateway.app cfg req
      = Gateway.verifyApiKey cfg req (Gateway.balanceHandler cfg))
  \/ (Gateway.method req = Gateway.POST /\ Gateway.path req = "/api/release"
      /\ Gateway.app cfg req
         = Gateway.verifyApiKey cfg req
             (Gateway.releaseHandler cfg (Gateway.req_body req)))
  \/ Gateway.app cfg req = Ret {| Gateway.status := 200;
                                  Gateway.body := Gateway.ServiceInfo |}
  \/ Gateway.app cfg req = Ret {| Gateway.status := 404;
                                  Gateway.body := Gateway.NoRoute |}.
Proof.
  unfold Gateway.app. destruct (Gateway.method req).
  - destruct (String.eqb_spec (Gateway.path req) "/"); [tauto|].
    destruct (String.eqb_spec (Gateway.path req) "/api/balance"); tauto.
  - destruct (String.eqb_spec (Gateway.path req) "/api/release"); tauto.
Qed.

(** The runs of the balance handler. *)
Lemma balanceHandler_runs cfg (ledger : forall c, Gateway.reply c) :
  let read := Gateway.GetAccounts [JS.nullish (Gateway.ESCROW_ACCOUNT cfg) ""] in
  (JS.truthy (Gateway.ESCROW_ACCOUNT cfg) = false
   /\ run ledger (Gateway.balanceHandler cfg)
      = (Gateway.json 500 (Gateway.failure
           (Some "Escrow account not configured")), []))
  \/ (JS.truthy (Gateway.ESCROW_ACCOUNT cfg) = true
      /\ ((exists a rest, ledger read = Returns (Some (a :: rest))
           /\ run ledger (Gateway.balanceHandler cfg)
              = (Gateway.json 200
                   {| Gateway.success := true; Gateway.message := None;
                      Gateway.j_balance := Some (Gateway.balance a);
                      Gateway.j_hbd_balance := Some (Gateway.hbd_balance a);
                      Gateway.transaction_id := None |}, [read]))
          \/ ((ledger read = Returns None \/ ledger read = Returns (Some []))
              /\ run ledger (Gateway.balanceHandler cfg)
                 = (Gateway.json 404 (Gateway.failure
                      (Some "Account not found")), [read]))
          \/ (exists err, ledger read = Throws err
              /\ run ledger (Gateway.balanceHandler cfg)
                 = (Gateway.json 500 (Gateway.failure (err_message err)),
                    [read])))).
Proof.
  intros read. unfold Gateway.balanceHandler.
  destruct (JS.truthy (Gateway.ESCROW_ACCOUNT cfg)); cbn [negb]; [right|now left].
  split; [reflexivity|]. cbn [run]. fold read.
  destruct (ledger read) as [[[|a rest]|]|err].
  - right; left. split; [now right|reflexivity].
  - left. exists a, rest. split; reflexivity.
  - right; left. split; [now left|reflexivity].
  - right; right. exists err. split; reflexivity.
Qed.

(** The field test of the release handler is [well_formed]. *)
Lemma fields_test b :
  orb (orb (negb (JS.truthy (Gateway.to b))) (negb (JS.truthy (Gateway.amount b))))
      (orb (negb (JS.truthy (Gateway.bountyId b)))
           (negb (JS.truthy (Gateway.requester b)))) = false
  <-> well_formed b.
Proof.
  unfold well_formed.
  destruct (JS.truthy (Gateway.to b)), (JS.truthy (Gateway.amount b)),
    (JS.truthy (Gateway.bountyId b)), (JS.truthy (Gateway.requester b));
    cbn; intuition discriminate.
Qed.

(** The runs of the release handler, check by check. *)
Ltac release_cases cfg b ledger :=
  unfold Gateway.releaseHandler;
  let Hf := fresh "Hfields" in
  let He := fresh "Hescrow" in
  let Hk := fresh "Hkey" in
  let Hl := fresh "Hread" in
  let Hi := fresh "Hinvalid" in
  let Hb := fresh "Hbelow" in
  let Hs := fresh "Hsend" in
  destruct (orb (orb (negb (JS.truthy (Gateway.to b)))
                     (negb (JS.truthy (Gateway.amount b))))
                (orb (negb (JS.truthy (Gateway.bountyId b)))
                     (negb (JS.truthy (Gateway.requester b))))) eqn:Hf;
  [|apply fields_test in Hf;
    destruct (JS.truthy (Gateway.ESCROW_ACCOUNT cfg)) eqn:He; cbn [negb];
    [destruct (Gateway.ACTIVE_KEY cfg) as [?key|] eqn:Hk;
     [cbn [run];
      destruct (ledger (Gateway.GetAccounts
                  [JS.nullish (Gateway.ESCROW_ACCOUNT cfg) ""]))
        as [[[|?a ?rest]|]|?err] eqn:Hl;
      [| fold (invalid_amount (JS.tpl (Gateway.amount b)));
         destruct (invalid_amount (JS.tpl (Gateway.amount b))) eqn:Hi;
         [|destruct (JS.lt (JS.parseFloat (Gateway.balance a))
                      (JS.parseFloat (JS.tpl (Gateway.amount b)))) eqn:Hb;
           [|cbn [run]; fold (transfer_of cfg b);
             match goal with
             | _ : Gateway.ACTIVE_KEY cfg = Some ?k |- _ =>
                 destruct (ledger (Gateway.SendOperations [transfer_of cfg b] k))
                   as [?result|?err] eqn:Hs
             end]]
       | |]
     |]
    |]];
  cbn [run fst snd].


(** X2 (server.js). On every route that answers with a JSON result, [success] is
    true exactly when the status is 200. *)
Theorem api_success_iff_status_200 :
  forall (cfg : Gateway.Config) (req : Gateway.Request)
         (ledger : forall c, Gateway.reply c) (j : Gateway.Json),
    Gateway.body (fst (run ledger (Gateway.app cfg req))) = Gateway.Api j ->
    (Gateway.success j = true
     <-> Gateway.status (fst (run ledger (Gateway.app cfg req))) = 200%nat).
Proof.
  intros cfg req ledger j.
  destruct (app_routes cfg req)
    as [(_ & _ & ->) | [(_ & _ & ->) | [-> | ->]]];
    try (cbn; discriminate).
  - destruct (verifyApiKey_passes cfg req (Gateway.balanceHandler cfg))
      as [-> | (-> & _)].
    + cbn. intros [= <-]. cbn. split; discriminate.
    + unfold Gateway.balanceHandler.
      destruct (JS.truthy (Gateway.ESCROW_ACCOUNT cfg)); cbn [negb run];
        [destruct (ledger _) as [[[|a rest]|]|err]|];
        cbn; intros [= <-]; cbn; split; (discriminate || reflexivity).
  - destruct (verifyApiKey_passes cfg req
                (Gateway.releaseHandler cfg (Gateway.req_body req)))
      as [-> | (-> & _)].
    + cbn. intros [= <-]. cbn. split; discriminate.
    + release_cases cfg (Gateway.req_body req) ledger;
        intros [= <-]; cbn; split; (discriminate || reflexivity).
Qed.


(** X4 (GET routes, server.js). Against any ledger whose state is not changed by
    reading accounts, a GET request leaves the ledger's state as it was,
    submits no transfer, and asked again gives the same answer. *)
Theorem balance_inquiry_is_repeatable :
  forall (S : Type) (answer : S -> forall c : Gateway.call, S * Gateway.reply c),
    (forall s names, fst (answer s (Gateway.GetAccounts names)) = s) ->
    forall (cfg : Gateway.Config) (req : Gateway.Request) (s : S),
      Gateway.method req = Gateway.GET ->
      fst (fst (run_state answer s (Gateway.app cfg req))) = s
      /\ no_transfer (snd (run_state answer s (Gateway.app cfg req)))
      /\ run_state answer
           (fst (fst (run_state answer s (Gateway.app cfg req))))
           (Gateway.app cfg req)
         = run_state answer s (Gateway.app cfg req).
Proof.
  intros S answer Hread cfg req s Hm.
  assert (H : fst (fst (run_state answer s (Gateway.app cfg req))) = s
              /\ no_transfer
                   (snd (run_state answer s (Gateway.app cfg req)))).
  { destruct (app_routes cfg req)
      as [(_ & _ & ->) | [(Hm' & _) | [-> | ->]]];
      try (split; reflexivity); try congruence.
    destruct (verifyApiKey_passes cfg req (Gateway.balanceHandler cfg))
      as [-> | (-> & _)]; [split; reflexivity|].
    unfold Gateway.balanceHandler.
    destruct (JS.truthy (Gateway.ESCROW_ACCOUNT cfg)); cbn [negb run_state];
      [|split; reflexivity].
    specialize (Hread s [JS.nullish (Gateway.ESCROW_ACCOUNT cfg) ""]).
    destruct (answer s (Gateway.GetAccounts _)) as [s' r]. cbn in Hread.
    subst s'. destruct r as [[[|a rest]|]|err]; split; reflexivity. }
  destruct H as [H1 H2]. repeat split; try assumption. now rewrite H1.
Qed.

(** X5 (POST /api/release, server.js). The refusals of the release handler before
    any transfer: a missing field gives 400 'Missing required parameters' and
    an unset custodial account 500 'Escrow account not properly configured',
    both without a ledger call; an account the ledger does not know gives 404
    'Escrow account not found', and a failing read 500 with the error's
    message, both after the read alone. *)
Theorem release_validation_precedes_ledger :
  forall (cfg : Gateway.Config) (b : Gateway.ReleaseBody)
         (ledger : forall c, Gateway.reply c),
    let read := Gateway.GetAccounts [JS.nullish (Gateway.ESCROW_ACCOUNT cfg) ""] in
    let handled := run ledger (Gateway.releaseHandler cfg b) in
    (JS.truthy (Gateway.to b) = false \/ JS.truthy (Gateway.amount b) = false
     \/ JS.truthy (Gateway.bountyId b) = false
     \/ JS.truthy (Gateway.requester b) = false ->
     handled = (Gateway.json 400 (Gateway.failure
                  (Some "Missing required parameters")), []))
    /\ (well_formed b ->
        (JS.truthy (Gateway.ESCROW_ACCOUNT cfg) = false ->
         handled = (Gateway.json 500 (Gateway.failure
                      (Some "Escrow account not properly configured")), []))
        /\ (JS.truthy (Gateway.ESCROW_ACCOUNT cfg) = true ->
            Gateway.ACTIVE_KEY cfg <> None ->
            (ledger read = Returns None \/ ledger read = Returns (Some []) ->
             handled = (Gateway.json 404 (Gateway.failure
                          (Some "Escrow account not found")), [read]))
            /\ (forall err, ledger read = Throws err ->
                handled = (Gateway.json 500 (Gateway.failure (err_message err)),
                           [read])))).
Proof.
  intros cfg b ledger read handled. subst handled read. split.
  - intros H. unfold Gateway.releaseHandler.
    replace (orb _ _) with true; [reflexivity|].
    destruct H as [-> | [-> | [-> | ->]]]; cbn;
      now rewrite ?orb_true_r.
  - intros Hwf. split.
    + intros He. release_cases cfg b ledger; try reflexivity;
        try congruence; apply fields_test in Hwf; congruence.
    + intros He Hk. split.
      * intros H. release_cases cfg b ledger; try reflexivity;
          try (apply fields_test in Hwf; congruence);
          destruct H; congruence.
      * intros err H. release_cases cfg b ledger; try reflexivity;
          try (apply fields_test in Hwf; congruence); congruence.
Qed.

(** ** The release through the client, when every check passes *)


(** ** The defaults of the client and of the gateway *)

(** X7 (API_KEY of server.js, ESCROW_SERVICE_URL and ESCROW_API_KEY of
    hive.config.ts). Without any of the three environment settings the client
    and a gateway at http://localhost:3000 agree: the client's requests reach
    the gateway and pass its key check. *)
Theorem defaults_agree :
  forall (PrivateKey_from : string -> outcome Gateway.PrivateKey)
         (penv : Gateway.ProcessEnv) (benv : App.BuildEnv)
         (ledger : forall c, Gateway.reply c),
    JS.truthy (Gateway.env_API_KEY penv) = false ->
    JS.truthy (App.VITE_ESCROW_API_KEY benv) = false ->
    JS.truthy (App.VITE_ESCROW_SERVICE_URL benv) = false ->
    let cfg := Gateway.load PrivateKey_from penv in
    Gateway.API_KEY cfg = "your-api-key"
    /\ reaches {| Deployment.origin := "http://localhost:3000";
                  Deployment.config := cfg;
                  Deployment.ledger := ledger |} benv
    /\ forall (req : Gateway.Request) (next : Gateway.io Gateway.Response),
         Gateway.x_api_key req = Some "your-api-key" ->
         Gateway.verifyApiKey cfg req next = next.
Proof.
  intros from penv benv ledger Hp Hk Hu cfg.
  assert (Hdef : forall a d, JS.truthy a = false -> JS.or_else a d = d).
  { intros [s|] d; cbn; [|reflexivity].
    now destruct (String.eqb s ""). }
  assert (Hkey : Gateway.API_KEY cfg = "your-api-key")
    by (apply Hdef; exact Hp).
  split; [exact Hkey|]. split.
  - unfold reaches, App.ESCROW_SERVICE_URL, App.ESCROW_API_KEY.
    cbn [Deployment.origin Deployment.config].
    rewrite (Hdef _ _ Hu), (Hdef _ _ Hk), Hkey. split; reflexivity.
  - intros req next Hreq. unfold Gateway.verifyApiKey.
    rewrite Hreq, Hkey. reflexivity.
Qed.

(** ** [checkEscrowBalance] against the gateway *)

(** [getBalance] is the client's reading of the gateway's answer. *)
Lemma getBalance_unfold site env :
  Inquiry.getBalance site env
  = let p := Inquiry.get site (App.ESCROW_SERVICE_URL env ++ "/balance")
               (App.ESCROW_API_KEY env) in
    (match App.axios_settle (fst p) with
     | App.AxiosOk data => App.Fulfilled data
     | App.AxiosFail response_data msg =>
         App.Fulfilled (Gateway.Api (Gateway.failure (Some
           (JS.or_else
              (JS.or_opt (match response_data with
                          | Some d => App.data_message d
                          | None => None
                          end) msg)
              "Failed to check escrow balance"))))
     end, snd p).
Proof.
  unfold Inquiry.getBalance, Inquiry.checkEscrowBalance. cbn [run_state].
  rewrite (or_else_Some _ _ (ESCROW_SERVICE_URL_nonempty env)).
  rewrite (or_else_Some _ _ (ESCROW_API_KEY_nonempty env)).
  unfold Inquiry.answer.
  destruct (Inquiry.get _ _ _) as [r calls]. cbn [fst snd].
  destruct (App.axios_settle r) as [data|d m]; reflexivity.
Qed.

Lemma get_reaches site env :
  reaches_balance site env ->
  Inquiry.get site (App.ESCROW_SERVICE_URL env ++ "/balance")
    (App.ESCROW_API_KEY env)
  = (App.HttpResponse
       (fst (run (Deployment.ledger site)
               (Gateway.balanceHandler (Deployment.config site)))),
     snd (run (Deployment.ledger site)
            (Gateway.balanceHandler (Deployment.config site)))).
Proof.
  intros [Hu Hk]. unfold Inquiry.get. rewrite Hu.
  unfold Gateway.app. cbn [Gateway.method Gateway.path].
  cbn [String.eqb Ascii.eqb Bool.eqb andb].
  rewrite verifyApiKey_accepts.
  - now destruct (run _ _).
  - cbn. now rewrite Hk.
  - rewrite <- Hk. apply ESCROW_API_KEY_nonempty.
Qed.

(** X8 (checkEscrowBalance against the gateway). The balance inquiry always ends
    fulfilled, never rejected or pending, and the gateway makes at most one
    ledger call for it: the read of the custodial account. *)
Theorem getBalance_is_read_only :
  forall (site : Deployment.Site) (env : App.BuildEnv),
    (exists body, fst (Inquiry.getBalance site env) = App.Fulfilled body)
    /\ (snd (Inquiry.getBalance site env) = []
        \/ snd (Inquiry.getBalance site env)
           = [Gateway.GetAccounts
                [JS.nullish (Gateway.ESCROW_ACCOUNT (Deployment.config site))
                   ""]]).
Proof.
  intros site env. rewrite getBalance_unfold. cbv zeta. cbn [fst snd]. split.
  - destruct (App.axios_settle _); eauto.
  - unfold Inquiry.get.
    destruct (Deployment.strip_prefix _ _) as [path|]; [|now left].
    match goal with |- context [Gateway.app ?c ?r] =>
      destruct (app_routes c r) as [(_ & _ & ->) | [(Hm & _) | [-> | ->]]]
    end; try (now left); try discriminate.
    destruct (verifyApiKey_passes (Deployment.config site)
                {| Gateway.method := Gateway.GET; Gateway.path := path;
                   Gateway.x_api_key := Some (App.ESCROW_API_KEY env);
                   Gateway.req_body := Gateway.mkBody None None None None None |}
                (Gateway.balanceHandler (Deployment.config site)))
      as [-> | (-> & _)]; [now left|].
    destruct (balanceHandler_runs (Deployment.config site)
                (Deployment.ledger site))
      as [[_ ->] | [_ [(a & r & _ & ->) | [[_ ->] | (err & _ & ->)]]]];
      cbn; tauto.
Qed.

(** X9 (checkEscrowBalance against GET /api/balance). When the inquiry reaches
    the gateway: the balances of the account as the ledger reports them, or
    the gateway's message for an unset account, an unknown account, or a
    failing read (axios's message when the error has none). *)
Theorem getBalance_outcomes :
  forall (site : Deployment.Site) (env : App.BuildEnv),
    let cfg := Deployment.config site in
    let read :=
      Gateway.GetAccounts [JS.nullish (Gateway.ESCROW_ACCOUNT cfg) ""] in
    let answers (j : Gateway.Json) (calls : list Gateway.call) :=
      Inquiry.getBalance site env
      = (App.Fulfilled (Gateway.Api j), calls) in
    reaches_balance site env ->
    (JS.truthy (Gateway.ESCROW_ACCOUNT cfg) = false ->
     answers (Gateway.failure (Some "Escrow account not configured")) [])
    /\ (JS.truthy (Gateway.ESCROW_ACCOUNT cfg) = true ->
        (forall a others,
            Deployment.ledger site read = Returns (Some (a :: others)) ->
            answers {| Gateway.success := true; Gateway.message := None;
                       Gateway.j_balance := Some (Gateway.balance a);
                       Gateway.j_hbd_balance := Some (Gateway.hbd_balance a);
                       Gateway.transaction_id := None |} [read])
        /\ (Deployment.ledger site read = Returns None
            \/ Deployment.ledger site read = Returns (Some []) ->
            answers (Gateway.failure (Some "Account not found")) [read])
        /\ (forall err,
               Deployment.ledger site read = Throws err ->
               answers (Gateway.failure (Some
                 (JS.or_else (err_message err)
                    "Request failed with status code 500"))) [read])).
Proof.
  intros site env cfg read answers Hreach. subst answers read.
  rewrite getBalance_unfold. cbv zeta. rewrite (get_reaches _ _ Hreach).
  cbn [fst snd]. fold cfg.
  destruct (balanceHandler_runs cfg (Deployment.ledger site))
    as [[He ->] | [He [(a & r & Hl & ->) | [[Hl ->] | (err & Hl & ->)]]]].
  - split; [reflexivity|congruence].
  - split; [congruence|]. intros _. split; [|split].
    + intros a' o' H. rewrite Hl in H. now injection H as <- <-.
    + intros [H|H]; congruence.
    + intros err H. congruence.
  - split; [congruence|]. intros _. split; [|split].
    + intros a' o' H. destruct Hl; congruence.
    + reflexivity.
    + intros err H. destruct Hl; congruence.
  - split; [congruence|]. intros _. split; [|split].
    + intros a' o' H. congruence.
    + intros [H|H]; congruence.
    + intros err' H. rewrite Hl in H. injection H as <-. cbn.
      unfold JS.or_opt, JS.or_else, JS.truthy.
      destruct (err_message err) as [m|]; [|reflexivity].
      destruct (String.eqb m "") eqn:Hm; cbn; [reflexivity|now rewrite Hm].
Qed.

(** ** [releaseEscrowFunds] *)


(** ** [createBounty], beyond the balance check *)

(** The runs of [createBounty], step by step. *)
Ltac create_cases env window username bountyData world :=
  unfold App.createBounty; cbn [run];
  fold (lookup_contract env);
  destruct (world (lookup_contract env)) as [[[|?c ?cs]|]|?err] eqn:?Hcontract;
  cbn [run];
  [| fold (lookup_creator username);
     destruct (world (lookup_creator username))
       as [[[|?account ?others]|]|?err] eqn:?Hcreator;
     cbn [run];
     [| destruct (JS.lt (JS.parseFloat (App.balance account))
                   (JS.parseFloat (JS.toString (App.prizePool bountyData))))
          eqn:?Hbelow;
        [| destruct (App.hive_keychain window) eqn:?Hkeychain; cbn [negb run];
           [ fold (sign_create window username bountyData);
             destruct (world (sign_create window username bountyData))
               as [?response|?err|] eqn:?Hsign;
             [ destruct (App.k_success response) eqn:?Hsigned; cbn [run];
               [ fold (fund env username bountyData response);
                 destruct (world (fund env username bountyData response))
                   as [?transferResult|?err] eqn:?Hfund;
                 [destruct (App.success transferResult) eqn:?Hfunded|]
               |]
             | |]
           |]]
     | |]
  | |];
  cbn [run fst snd].

(** X11 (createBounty, bounty.contract.ts). createBounty sends tokens only after
    the signer has accepted the bounty_create record: either the trace has no
    payment, or the trace is the two lookups, the signed record and the one
    transfer, and the result carries the record's transaction id. *)
Theorem createBounty_funds_only_after_attestation :
  forall (env : App.BuildEnv) (window : App.Browser) (username : string)
         (bountyData : App.BountyData) (world : forall c, App.reply c),
    let create := run world (App.createBounty env window username bountyData) in
    let sign := sign_create window username bountyData in
    no_payment (snd create)
    \/ (App.hive_keychain window = true
        /\ exists response,
             world sign = App.Responds response
             /\ App.k_success response = true
             /\ snd create
                = [lookup_contract env; lookup_creator username; sign;
                   fund env username bountyData response]
             /\ exists r,
                  fst create = App.Fulfilled r
                  /\ App.txId r = Some (App.result_id response)).
Proof.
  intros env window username bountyData world create sign.
  subst create sign.
  create_cases env window username bountyData world;
    try (left; reflexivity);
    right; (split; [reflexivity|]); exists response;
    repeat split; try assumption; eexists; split; reflexivity.
Qed.

(** X12 (createBounty, bounty.contract.ts). Past the balance check: a refused
    record is a failure with the signer's error; a signed record followed by a
    successful transfer is 'Bounty created and funded successfully'; a signed
    record followed by a failed or throwing transfer is a failure that says
    the bounty was created but not funded, and keeps the record's id. *)
Theorem createBounty_outcome_after_attestation :
  forall (env : App.BuildEnv) (window : App.Browser) (username : string)
         (bountyData : App.BountyData) (world : forall c, App.reply c)
         (contract : App.Account) (contracts : list App.Account)
         (account : App.Account) (others : list App.Account)
         (response : App.KeychainResponse),
    let create := run world (App.createBounty env window username bountyData) in
    let sign := sign_create window username bountyData in
    let transfer := fund env username bountyData response in
    let id := App.result_id response in
    world (lookup_contract env) = Returns (Some (contract :: contracts)) ->
    world (lookup_creator username) = Returns (Some (account :: others)) ->
    JS.lt (JS.parseFloat (App.balance account))
          (JS.parseFloat (JS.toString (App.prizePool bountyData))) = false ->
    App.hive_keychain window = true ->
    world sign = App.Responds response ->
    (App.k_success response = false ->
     create = (App.Fulfilled (App.failure
                 (JS.or_else (App.k_error response) "Failed to create bounty")),
               [lookup_contract env; lookup_creator username; sign]))
    /\ (App.k_success response = true ->
        (forall t, world transfer = Returns t -> App.success t = true ->
           create = (App.Fulfilled
                       {| App.success := true;
                          App.message := "Bounty created and funded successfully";
                          App.txId := Some id |},
                     [lookup_contract env; lookup_creator username; sign;
                      transfer]))
        /\ (forall t, world transfer = Returns t -> App.success t = false ->
              create = (App.Fulfilled
                          {| App.success := false;
                             App.message := "Bounty created but funding failed: "
                               ++ App.message t
                               ++ ". Please try funding manually.";
                             App.txId := Some id |},
                        [lookup_contract env; lookup_creator username; sign;
                         transfer]))
        /\ (forall err, world transfer = Throws err ->
              create = (App.Fulfilled
                          {| App.success := false;
                             App.message := "Bounty created but funding failed: "
                               ++ JS.tpl (err_message err)
                               ++ ". Please try funding manually.";
                             App.txId := Some id |},
                        [lookup_contract env; lookup_creator username; sign;
                         transfer]))).
Proof.
  intros env window username bountyData world contract contracts account
         others response create sign transfer id Hc Hu Hbal Hk Hs.
  subst create sign transfer id.
  unfold App.createBounty. cbn [run]. fold (lookup_contract env).
  rewrite Hc. cbn [run]. fold (lookup_creator username).
  rewrite Hu, Hbal, Hk. cbn [negb run].
  fold (sign_create window username bountyData). rewrite Hs.
  split.
  - intros ->. reflexivity.
  - intros ->. cbn [run]. fold (fund env username bountyData response).
    split; [|split].
    + intros t -> ->. reflexivity.
    + intros t -> ->. reflexivity.
    + intros err ->. reflexivity.
Qed.

(** X13 (createBounty, bounty.contract.ts). createBounty ends fulfilled, except
    when the signer is present and never calls back (pending) or throws
    (rejected with that error): a missing signer is a fulfilled failure. *)
Theorem createBounty_settles_unless_signer_throws :
  forall (env : App.BuildEnv) (window : App.Browser) (username : string)
         (bountyData : App.BountyData) (world : forall c, App.reply c),
    let create := run world (App.createBounty env window username bountyData) in
    let sign := sign_create window username bountyData in
    (exists r, fst create = App.Fulfilled r)
    \/ (fst create = App.Pending
        /\ App.hive_keychain window = true /\ world sign = App.Silent)
    \/ (exists err,
          fst create = App.Rejected err
          /\ App.hive_keychain window = true /\ world sign = App.Raises err).
Proof.
  intros env window username bountyData world create sign.
  subst create sign.
  create_cases env window username bountyData world;
    try (left; eexists; reflexivity).
  - right; right. eexists. repeat split; assumption.
  - right; left. repeat split; assumption.
Qed.

(** ** [claimBounty], beyond the order of its guards *)

(** The runs of [claimBounty], step by step. *)
Ltac claim_cases window parse username bountyId bounty prUrl world :=
  unfold App.claimBounty;
  destruct (parse (App.githubLink (App.b_data bounty))) as [?i|] eqn:?Hissue;
  [destruct (parse prUrl) as [?p|] eqn:?Hpr;
   [destruct (String.eqb (App.owner i) (App.owner p)) eqn:?Howner;
    [destruct (String.eqb (App.repo i) (App.repo p)) eqn:?Hrepo;
     [cbn [negb orb run]; fold (check_issue i);
      destruct (world (check_issue i)) as [[|]|?err] eqn:?Hclosed;
      cbn [negb run];
      [fold (check_pr p);
       destruct (world (check_pr p)) as [?d|?err] eqn:?Hdetails; cbn [run];
       [destruct (App.merged d) eqn:?Hmerged; cbn [negb run];
        [destruct (App.user d) as [?u|] eqn:?Hauthor; cbn [run];
         [fold (check_link i p);
          destruct (world (check_link i p)) as [[|]|?err] eqn:?Hlinked;
          cbn [negb run];
          [destruct (App.hive_keychain window) eqn:?Hkeychain;
           cbn [negb run];
           [fold (claim_record window username bountyId prUrl d u);
            fold (sign_claim username
                    (claim_record window username bountyId prUrl d u));
            destruct (world (sign_claim username
                        (claim_record window username bountyId prUrl d u)))
              as [?response|?err|] eqn:?Hsign;
            [destruct (App.k_success response) eqn:?Hsigned| |]
           |]
          | |]
         |]
        |]
       |]
      | |]
     |]
    |]
   |]
  |];
  cbn [negb orb run fst snd].

(** X14 (claimBounty, bounty.contract.ts). claimBounty moves no funds, and it
    asks the signer only after every check on the code host has passed; the
    record it asks to sign is the bounty_claim record of this pull request,
    with the author's login. *)
Theorem claimBounty_attests_only_verified_claims :
  forall (window : App.Browser) (parse : string -> option App.UrlInfo)
         (username bountyId : string) (bounty : App.BountyProgram)
         (prUrl : string) (world : forall c, App.reply c),
    let claim :=
      run world (App.claimBounty window parse username bountyId bounty prUrl) in
    no_payment (snd claim)
    /\ forall account id keyType json display,
         In (App.RequestCustomJson account id keyType json display)
            (snd claim) ->
         exists i p d u,
           parse (App.githubLink (App.b_data bounty)) = Some i
           /\ parse prUrl = Some p
           /\ App.owner i = App.owner p /\ App.repo i = App.repo p
           /\ world (check_issue i) = Returns true
           /\ world (check_pr p) = Returns d
           /\ App.merged d = true /\ App.user d = Some u
           /\ world (check_link i p) = Returns true
           /\ json = App.bounty_claim
                       (claim_record window username bountyId prUrl d u).
Proof.
  intros window parse username bountyId bounty prUrl world claim.
  subst claim.
  claim_cases window parse username bountyId bounty prUrl world;
    (split; [reflexivity|]);
    intros account id keyType json display Hin; cbn [In] in Hin;
    repeat (destruct Hin as [Hin|Hin]; try discriminate Hin);
    try contradiction;
    injection Hin as <- <- <- <- <-;
    apply String.eqb_eq in Howner; apply String.eqb_eq in Hrepo;
    exists i, p, d, u; repeat split; assumption.
Qed.

(** X15 (claimBounty, bounty.contract.ts). The ends of claimBounty: a success
    has a transaction id and four calls behind it; a failure has a message
    and no id; it stays pending only when the signer never calls back; and it
    is rejected only at the signing step, after the three checks on the code
    host. *)
Theorem claimBounty_rejects_only_at_the_signer :
  forall (window : App.Browser) (parse : string -> option App.UrlInfo)
         (username bountyId : string) (bounty : App.BountyProgram)
         (prUrl : string) (world : forall c, App.reply c),
    let claim :=
      run world (App.claimBounty window parse username bountyId bounty prUrl) in
    (exists r,
        fst claim = App.Fulfilled r
        /\ (App.success r = true ->
            (exists id, App.txId r = Some id) /\ length (snd claim) = 4%nat)
        /\ (App.success r = false ->
            App.txId r = None /\ App.message r <> ""))
    \/ (exists data,
          fst claim = App.Pending
          /\ App.hive_keychain window = true
          /\ world (sign_claim username data) = App.Silent)
    \/ (exists err,
          fst claim = App.Rejected err
          /\ length (snd claim) >= 3
          /\ ((App.hive_keychain window = false
               /\ err = App.keychain_undefined)
              \/ (App.hive_keychain window = true
                  /\ exists data,
                       world (sign_claim username data) = App.Raises err))).
Proof.
  intros window parse username bountyId bounty prUrl world claim.
  subst claim.
  claim_cases window parse username bountyId bounty prUrl world;
    try solve
      [left; eexists; split; [reflexivity|];
       cbn [App.failure App.success App.txId App.message];
       split; intros Hs; try discriminate Hs;
       split; first [reflexivity | eexists; reflexivity | discriminate
                    | apply or_else_nonempty; discriminate]].
  - right; right. eexists. split; [reflexivity|]. split; [cbn; lia|].
    right. split; [reflexivity|]. eauto.
  - right; left. eexists. repeat split; eauto.
  - right; right. eexists. split; [reflexivity|]. split; [cbn; lia|].
    left. split; reflexivity.
Qed.

(** X16 (claimBounty, bounty.contract.ts). An error thrown by any of the three
    calls to the code host is caught: the claim is fulfilled with a failure
    that carries the error's message, and nothing is called after the call
    that threw. *)
Theorem claimBounty_catches_code_host_errors :
  forall (window : App.Browser) (parse : string -> option App.UrlInfo)
         (username bountyId : string) (bounty : App.BountyProgram)
         (prUrl : string) (world : forall c, App.reply c)
         (i p : App.UrlInfo) (err : JsError),
    let claim :=
      run world (App.claimBounty window parse username bountyId bounty prUrl) in
    let caught (calls : list App.call) :=
      claim = (App.Fulfilled (App.failure
                 (JS.or_else (err_message err) "Error processing claim")),
               calls) in
    parse (App.githubLink (App.b_data bounty)) = Some i ->
    parse prUrl = Some p ->
    App.owner i = App.owner p -> App.repo i = App.repo p ->
    (world (check_issue i) = Throws err -> caught [check_issue i])
    /\ (world (check_issue i) = Returns true ->
        (world (check_pr p) = Throws err ->
         caught [check_issue i; check_pr p])
        /\ (forall d, world (check_pr p) = Returns d ->
              App.merged d = true -> App.user d <> None ->
              world (check_link i p) = Throws err ->
              caught [check_issue i; check_pr p; check_link i p])).
Proof.
  intros window parse username bountyId bounty prUrl world i p err
         claim caught Hi Hp Ho Hr.
  subst caught claim. unfold App.claimBounty.
  rewrite Hi, Hp, (proj2 (String.eqb_eq _ _) Ho), (proj2 (String.eqb_eq _ _) Hr).
  cbn [negb orb run]. fold (check_issue i). split.
  - intros ->. reflexivity.
  - intros ->. cbn [negb run]. fold (check_pr p). split.
    + intros ->. reflexivity.
    + intros d -> -> Hu. cbn [negb]. destruct (App.user d) as [u|];
        [|congruence]. cbn [run]. fold (check_link i p). intros ->. reflexivity.
Qed.

(** ** [verifyAndPayBounty], beyond the failed approval *)

(** The release always ends in a result that has a message. *)
Lemma release_fulfils env to amount bountyId requester memo
  (world : forall c, App.reply c) :
  exists r,
    fst (run world
           (App.releaseEscrowFunds env to amount bountyId requester memo))
    = App.Fulfilled r
    /\ App.message r <> "".
Proof.
  unfold App.releaseEscrowFunds. cbn [run].
  destruct (App.axios_settle _) as [data|rd m];
    [destruct (App.data_success data)|]; cbn [run fst];
    eexists; (split; [reflexivity|]); cbn [App.failure App.message];
    apply or_else_nonempty; discriminate.
Qed.

(** X17 (verifyAndPayBounty, bounty.contract.ts). verifyAndPayBounty is never
    rejected: it ends fulfilled with a non-empty message, or stays pending
    when the signer never calls back. *)
Theorem verifyAndPayBounty_always_settles :
  forall (env : App.BuildEnv) (window : App.Browser)
         (username bountyId : string) (claim : App.BountyClaim)
         (bountyAmount : string) (world : forall c, App.reply c),
    let pay :=
      run world
        (App.verifyAndPayBounty env window username bountyId claim
           bountyAmount) in
    let approve := sign_approval window username bountyId claim bountyAmount in
    (exists r, fst pay = App.Fulfilled r /\ App.message r <> "")
    \/ (fst pay = App.Pending
        /\ App.hive_keychain window = true /\ world approve = App.Silent).
Proof.
  intros env window username bountyId claim bountyAmount world pay approve.
  subst pay approve.
  destruct (App.hive_keychain window) eqn:Hk.
  - rewrite (pay_with_keychain env window username bountyId claim bountyAmount
               world Hk).
    destruct (world _) as [r|err|] eqn:Hw.
    + destruct (App.k_success r) eqn:Hs; cbn [fst].
      * left. apply release_fulfils.
      * left. eexists. split; [reflexivity|].
        unfold App.approvalResult. rewrite Hs. cbn.
        apply or_else_nonempty. discriminate.
    + left. eexists. split; [reflexivity|]. cbn. discriminate.
    + right. repeat split.
  - rewrite (pay_without_keychain env window username bountyId claim
               bountyAmount world Hk).
    left. eexists. split; [reflexivity|]. cbn. discriminate.
Qed.



(** ** [autoVerifyAndPay] *)

Lemma run_bind {E R A B} (world : forall e : E, R e)
  (p : prog E R A) (f : A -> prog E R B) :
  run world (bind p f)
  = (fst (run world (f (fst (run world p)))),
     (snd (run world p) ++ snd (run world (f (fst (run world p)))))%list).
Proof.
  induction p as [a|e k IH]; cbn [bind run fst snd].
  - now destruct (run world (f a)).
  - rewrite IH. destruct (run world (k (world e))) as [a t]. reflexivity.
Qed.

Lemma run_embed {A} (world : forall c, Auto.reply c) (p : App.io A) :
  run world (Auto.embed p)
  = (fst (run (claim_world world) p),
     map Auto.Claim (snd (run (claim_world world) p))).
Proof.
  induction p as [a|e k IH]; cbn [Auto.embed run]; [reflexivity|].
  rewrite IH. change (claim_world world e) with (world (Auto.Claim e)).
  destruct (run (claim_world world) (k (world (Auto.Claim e)))) as [a t].
  reflexivity.
Qed.

(** [claimBounty] moves no funds. *)
Lemma claim_moves_no_funds window parse username bountyId bounty prUrl
  (world : forall c, App.reply c) :
  no_payment
    (snd (run world
            (App.claimBounty window parse username bountyId bounty prUrl))).
Proof.
  claim_cases window parse username bountyId bounty prUrl world; reflexivity.
Qed.

(** A claim that succeeds has found the signer in the page. *)
Lemma claim_success_has_keychain window parse username bountyId bounty prUrl
  (world : forall c, App.reply c) r :
  fst (run world (App.claimBounty window parse username bountyId bounty prUrl))
  = App.Fulfilled r ->
  App.success r = true -> App.hive_keychain window = true.
Proof.
  claim_cases window parse username bountyId bounty prUrl world;
    intros [= <-]; cbn; congruence.
Qed.

Section AutoPay.
Variable window : App.Browser.
Variable parse : string -> option App.UrlInfo.
Variable username bountyId : string.
Variable bounty : App.BountyProgram.
Variable prUrl : string.
Variable world : forall c, Auto.reply c.

Let claim :=
  run (claim_world world)
    (App.claimBounty window parse username bountyId bounty prUrl).
Let auto :=
  run world
    (Auto.autoVerifyAndPay window parse username bountyId bounty prUrl).
Let request := sign_payment window username bountyId bounty.

(** The run of [autoVerifyAndPay] after the run of the claim. *)
Lemma auto_after_claim :
  auto
  = match fst claim with
    | App.Rejected err =>
        (App.Fulfilled (App.failure
           (JS.or_else (err_message err) "Error processing payment")),
         map Auto.Claim (snd claim))
    | App.Pending => (App.Pending, map Auto.Claim (snd claim))
    | App.Fulfilled r =>
        if App.success r then
          (match world request with
           | App.Raises err => App.Rejected err
           | App.Silent => App.Pending
           | App.Responds response =>
               if App.k_success response then
                 App.Fulfilled
                   {| App.success := true;
                      App.message := "Bounty payment successful!";
                      App.txId := Some (App.result_id response) |}
               else
                 App.Fulfilled (App.failure
                   (JS.or_else (App.k_error response)
                      "Failed to process payment"))
           end,
           (map Auto.Claim (snd claim) ++ [request])%list)
        else (App.Fulfilled r, map Auto.Claim (snd claim))
    end.
Proof.
  unfold auto, Auto.autoVerifyAndPay. rewrite run_bind, run_embed.
  cbn [fst snd]. fold claim.
  destruct (fst claim) as [r|err|] eqn:Hc; cbn [run fst snd];
    try now rewrite app_nil_r.
  destruct (App.success r) eqn:Hs; cbn [negb run fst snd];
    [|now rewrite app_nil_r].
  rewrite (claim_success_has_keychain _ _ _ _ _ _ _ _ Hc Hs).
  cbn [negb run]. unfold request, sign_payment.
  match goal with
  | |- context [world (Auto.RequestPay ?a ?b ?c ?d ?e)] =>
      destruct (world (Auto.RequestPay a b c d e)) as [resp|err|]
  end; [destruct (App.k_success resp)| |]; reflexivity.
Qed.

End AutoPay.

(** X19 (autoVerifyAndPay, bounty.contract.ts). autoVerifyAndPay runs the claim
    first: a rejected claim is caught and becomes a failure, a failed claim is
    returned as it is, and only a successful claim is followed by the request
    to sign the bounty_pay record, whose answer decides the result. *)
Theorem autoVerifyAndPay_follows_the_claim :
  forall (window : App.Browser) (parse : string -> option App.UrlInfo)
         (username bountyId : string) (bounty : App.BountyProgram)
         (prUrl : string) (world : forall c, Auto.reply c),
    let claim :=
      run (claim_world world)
        (App.claimBounty window parse username bountyId bounty prUrl) in
    let auto :=
      run world
        (Auto.autoVerifyAndPay window parse username bountyId bounty prUrl) in
    let request := sign_payment window username bountyId bounty in
    (forall err,
        fst claim = App.Rejected err ->
        auto = (App.Fulfilled (App.failure
                  (JS.or_else (err_message err) "Error processing payment")),
                map Auto.Claim (snd claim)))
    /\ (forall r,
           fst claim = App.Fulfilled r -> App.success r = false ->
           auto = (App.Fulfilled r, map Auto.Claim (snd claim)))
    /\ (forall r,
           fst claim = App.Fulfilled r -> App.success r = true ->
           snd auto = (map Auto.Claim (snd claim) ++ [request])%list
           /\ (forall response,
                  world request = App.Responds response ->
                  fst auto
                  = App.Fulfilled
                      (if App.k_success response then
                         {| App.success := true;
                            App.message := "Bounty payment successful!";
                            App.txId := Some (App.result_id response) |}
                       else App.failure
                              (JS.or_else (App.k_error response)
                                 "Failed to process payment"))))
    /\ (In request (snd auto) ->
        exists r, fst claim = App.Fulfilled r /\ App.success r = true).
Proof.
  intros window parse username bountyId bounty prUrl world claim auto request.
  subst claim auto request. rewrite auto_after_claim.
  split; [|split; [|split]].
  - intros err ->. reflexivity.
  - intros r -> ->. reflexivity.
  - intros r -> ->. split; [reflexivity|].
    intros response ->. cbn [fst]. now destruct (App.k_success response).
  - destruct (fst _) as [r|err|]; [destruct (App.success r) eqn:Hs| |];
      cbn [snd]; intros Hin; eauto;
      apply in_map_iff in Hin; destruct Hin as (c & Hc & _); discriminate.
Qed.

(** X20 (autoVerifyAndPay, bounty.contract.ts). autoVerifyAndPay neither sends
    tokens nor posts to the gateway: its payment is a signed record only. *)
Theorem autoVerifyAndPay_moves_no_funds :
  forall (window : App.Browser) (parse : string -> option App.UrlInfo)
         (username bountyId : string) (bounty : App.BountyProgram)
         (prUrl : string) (world : forall c, Auto.reply c),
    forallb (fun c => negb (Auto.is_payment c))
      (snd (run world
              (Auto.autoVerifyAndPay window parse username bountyId bounty
                 prUrl))) = true.
Proof.
  intros window parse username bountyId bounty prUrl world.
  rewrite auto_after_claim.
  pose proof (claim_moves_no_funds window parse username bountyId bounty prUrl
                (claim_world world)) as Hclaim.
  unfold no_payment in Hclaim.
  assert (Hmap : forall t, forallb (fun c => negb (App.is_payment c)) t = true ->
                 forallb (fun c => negb (Auto.is_payment c))
                   (map Auto.Claim t) = true).
  { induction t as [|c t IH]; cbn; [reflexivity|].
    intros H. apply andb_true_iff in H as [H1 H2]. now rewrite H1, IH. }
  destruct (fst _) as [r|err|]; [destruct (App.success r)| |]; cbn [snd];
    try (now apply Hmap).
  rewrite forallb_app, (Hmap _ Hclaim). reflexivity.
Qed.

(** ** A balance inquiry beside another request *)

(** A GET request only reads. *)
Lemma get_reads_only cfg req :
  Gateway.method req = Gateway.GET -> reads_only (Gateway.app cfg req).
Proof.
  intros Hm.
  destruct (app_routes cfg req)
    as [(_ & _ & ->) | [(Hm' & _) | [-> | ->]]];
    try exact I; try congruence.
  destruct (verifyApiKey_passes cfg req (Gateway.balanceHandler cfg))
    as [-> | (-> & _)]; [exact I|].
  unfold Gateway.balanceHandler.
  destruct (JS.truthy (Gateway.ESCROW_ACCOUNT cfg)); cbn [negb]; [|exact I].
  split; [reflexivity|]. intros [[[|a rest]|]|err]; exact I.
Qed.

Section Beside.
Context {S : Type}.
Variable answer : S -> forall c : Gateway.call, S * Gateway.reply c.
Hypothesis answer_reads :
  forall s names, fst (answer s (Gateway.GetAccounts names)) = s.

(** A program that only reads, beside any other program: the other program
    and the ledger go on as if it were not there. *)
Lemma reads_only_beside {A : Type} (schedule : list turn) :
  forall (s : S) (a q q0 : Gateway.io A),
    reads_only q ->
    let both := interleave answer schedule s a q in
    let alone := interleave answer (filter is_first schedule) s a q0 in
    fst (fst (fst both)) = fst (fst (fst alone))
    /\ snd (fst (fst both)) = snd (fst (fst alone))
    /\ of_first (snd both) = snd alone
    /\ reads_only (snd (fst both))
    /\ forall c, In (Second, c) (snd both) -> Gateway.is_transfer c = false.
Proof.
  induction schedule as [|[|] rest IH]; intros s a q q0 Hq; cbv zeta.
  - cbn. repeat split; try assumption. intros c [].
  - cbn [filter is_first interleave].
    destruct (step answer s a) as [[s' a'] e].
    specialize (IH s' a' q q0 Hq). cbv zeta in IH.
    destruct (interleave answer rest s' a' q) as [[[s1 a1] q1] log1].
    destruct (interleave answer (filter is_first rest) s' a' q0)
      as [[[s2 a2] q2] log2].
    cbn [fst snd] in *. destruct IH as (H1 & H2 & H3 & H4 & H5).
    repeat split; try assumption.
    + destruct e as [c|]; [|assumption]. unfold of_first in *.
      cbn [filter fst is_first]. now rewrite H3.
    + intros c Hin. apply H5. destruct e as [c'|]; [|assumption].
      destruct Hin as [Heq|Hin]; [discriminate Heq|assumption].
  - cbn [filter is_first interleave].
    assert (Hstep : exists q' e,
               step answer s q = (s, q', e) /\ reads_only q'
               /\ forall c, e = Some c -> Gateway.is_transfer c = false).
    { destruct q as [r|c k]; cbn [step].
      - exists (Ret r), None. repeat split. discriminate.
      - destruct Hq as [Hc Hk]. destruct c as [names|ops key];
          [|discriminate Hc].
        pose proof (answer_reads s names) as Hs.
        destruct (answer s (Gateway.GetAccounts names)) as [s' r].
        cbn in Hs. subst s'. eexists _, _. split; [reflexivity|].
        split; [apply Hk|]. now intros c [= <-]. }
    destruct Hstep as (q' & e & -> & Hq' & He).
    specialize (IH s a q' q0 Hq'). cbv zeta in IH.
    destruct (interleave answer rest s a q') as [[[s1 a1] q1] log1].
    destruct (interleave answer (filter is_first rest) s a q0)
      as [[[s2 a2] q2] log2].
    cbn [fst snd] in *. destruct IH as (H1 & H2 & H3 & H4 & H5).
    repeat split; try assumption.
    + destruct e as [c|]; [|assumption]. unfold of_first in *.
      cbn [filter fst is_first]. assumption.
    + intros c Hin. destruct e as [c'|]; [|now apply H5].
      destruct Hin as [[= <-]|Hin]; [now apply He|now apply H5].
Qed.

End Beside.

(** X21 (GET routes beside another request, server.js). Under every schedule of
    the event loop, a GET request that runs beside another request of the
    gateway submits no transfer, and the other request and the ledger go on
    as if the GET request were not there: same ledger state, same remaining
    program, same calls. *)
Theorem balance_inquiry_never_interferes :
  forall (S : Type) (answer : S -> forall c : Gateway.call, S * Gateway.reply c),
    (forall s names, fst (answer s (Gateway.GetAccounts names)) = s) ->
    forall (cfg : Gateway.Config) (req : Gateway.Request)
           (other : Gateway.io Gateway.Response) (schedule : list turn) (s : S),
      Gateway.method req = Gateway.GET ->
      let both := interleave answer schedule s other (Gateway.app cfg req) in
      let alone :=
        interleave answer (filter is_first schedule) s other
          (Gateway.app cfg req) in
      fst (fst (fst both)) = fst (fst (fst alone))
      /\ snd (fst (fst both)) = snd (fst (fst alone))
      /\ of_first (snd both) = snd alone
      /\ forall c, In (Second, c) (snd both) -> Gateway.is_transfer c = false.
Proof.
  intros S answer Hread cfg req other schedule s Hm both alone.
  destruct (reads_only_beside answer Hread schedule s other
              (Gateway.app cfg req) (Gateway.app cfg req)
              (get_reads_only cfg req Hm)) as (H1 & H2 & H3 & _ & H5).
  repeat split; assumption.
Qed.

(** An instance of [balance_inquiry_never_interferes]. *)
Lemma balance_inquiry_never_interferes_witness :
  snd (fst (fst (interleave Ledger.answer [Second; First; Second; First]
                   Scenario.hundred
                   (Gateway.app Cases.cfg
                      (Scenario.release_request (Some "your-api-key") "30"))
                   (Gateway.app Cases.cfg
                      (Scenario.balance_request (Some "your-api-key"))))))
  = snd (fst (fst (interleave Ledger.answer [First; First]
                     Scenario.hundred
                     (Gateway.app Cases.cfg
                        (Scenario.release_request (Some "your-api-key") "30"))
                     (Gateway.app Cases.cfg
                        (Scenario.balance_request (Some "your-api-key")))))).
Proof.
  exact (proj1 (proj2 (balance_inquiry_never_interferes Ledger.state
           Ledger.answer (fun s names => eq_refl) Cases.cfg
           (Scenario.balance_request (Some "your-api-key"))
           (Gateway.app Cases.cfg
              (Scenario.release_request (Some "your-api-key") "30"))
           [Second; First; Second; First] Scenario.hundred eq_refl))).
Defined.

(** ** Instances of the properties above *)


(** An instance of [api_success_iff_status_200]. *)
Lemma api_success_iff_status_200_witness :
  Gateway.status
    (fst (run Cases.ledger
            (Gateway.app Cases.cfg
               (Scenario.release_request (Some "your-api-key") "30"))))
  = 200%nat.
Proof.
  apply (api_success_iff_status_200 Cases.cfg
           (Scenario.release_request (Some "your-api-key") "30") Cases.ledger
           {| Gateway.success := true;
              Gateway.message := Some "Successfully sent 30 HIVE to @alice";
              Gateway.j_balance := None; Gateway.j_hbd_balance := None;
              Gateway.transaction_id := Some "tx-release" |});
    reflexivity.
Defined.


(** An instance of [balance_inquiry_is_repeatable]. *)
Lemma balance_inquiry_is_repeatable_witness :
  run_state Ledger.answer
    (fst (fst (run_state Ledger.answer Scenario.hundred
                 (Gateway.app Cases.cfg
                    (Scenario.balance_request (Some "your-api-key"))))))
    (Gateway.app Cases.cfg (Scenario.balance_request (Some "your-api-key")))
  = run_state Ledger.answer Scenario.hundred
      (Gateway.app Cases.cfg (Scenario.balance_request (Some "your-api-key"))).
Proof.
  apply (balance_inquiry_is_repeatable Ledger.state Ledger.answer
           (fun s names => eq_refl) Cases.cfg
           (Scenario.balance_request (Some "your-api-key")) Scenario.hundred
           eq_refl).
Defined.


(** An instance of [defaults_agree]. *)
Lemma defaults_agree_witness :
  reaches (Scenario.site None) World.build_env.
Proof.
  apply (defaults_agree Scenario.PrivateKey_from (Scenario.process_env None)
           World.build_env
           (World.ledger_with Scenario.escrow_account "tx-release")
           eq_refl eq_refl eq_refl).
Defined.

(** An instance of [getBalance_outcomes]. *)
Lemma getBalance_outcomes_witness :
  Inquiry.getBalance (Scenario.site None) World.build_env
  = (App.Fulfilled (Gateway.Api
       {| Gateway.success := true; Gateway.message := None;
          Gateway.j_balance := Some "100.000 HIVE";
          Gateway.j_hbd_balance := Some "0.000 HBD";
          Gateway.transaction_id := None |}),
     [Gateway.GetAccounts ["escrow"]]).
Proof.
  assert (Hreach : reaches_balance (Scenario.site None) World.build_env)
    by (split; reflexivity).
  destruct (getBalance_outcomes (Scenario.site None) World.build_env Hreach)
    as [_ H].
  destruct (H eq_refl) as [Hfound _].
  exact (Hfound Scenario.escrow_account [] eq_refl).
Defined.

(** An instance of [createBounty_outcome_after_attestation]. *)
Lemma createBounty_outcome_after_attestation_witness :
  run Cases.funding_fails
    (App.createBounty World.build_env (World.browser true) "bob"
       (App.b_data World.issue5))
  = (App.Fulfilled
       {| App.success := false;
          App.message := "Bounty created but funding failed: user_cancel. Please try funding manually.";
          App.txId := Some "tx-sign" |},
     [App.GetAccounts [Some "hive-bounty"]; App.GetAccounts [Some "bob"];
      sign_create (World.browser true) "bob" (App.b_data World.issue5);
      App.SendHiveTokens "bob" (Some "hive-bounty") "30"
        "bounty-create-tx-sign"]).
Proof.
  destruct (createBounty_outcome_after_attestation World.build_env
              (World.browser true) "bob" (App.b_data World.issue5)
              Cases.funding_fails (App.mkAccount "100.000 HIVE") []
              (App.mkAccount "100.000 HIVE") []
              {| App.k_success := true; App.k_error := None;
                 App.k_result := Some (App.mkResult (Some "tx-sign")) |}
              eq_refl eq_refl eq_refl eq_refl eq_refl) as [_ H].
  destruct (H eq_refl) as (_ & Hfail & _).
  exact (Hfail (App.mkTx false "user_cancel" None) eq_refl eq_refl).
Defined.

(** An instance of [claimBounty_catches_code_host_errors]. *)
Lemma claimBounty_catches_code_host_errors_witness :
  run Cases.code_host_down
    (App.claimBounty (World.browser true) World.parse_known "carol" "b1"
       World.issue5 "https://github.com/owner/repo/pull/7")
  = (App.Fulfilled (App.failure "Request failed"),
     [App.IsIssueClosed "owner" "repo" 5]).
Proof.
  destruct (claimBounty_catches_code_host_errors (World.browser true)
              World.parse_known "carol" "b1" World.issue5
              "https://github.com/owner/repo/pull/7" Cases.code_host_down
              (App.mkUrl "owner" "repo" 5) (App.mkUrl "owner" "repo" 7)
              (mkError (Some "Request failed"))
              eq_refl eq_refl eq_refl eq_refl) as [H _].
  exact (H eq_refl).
Defined.

